(** * Fertilizer recommendation engine: a shallow embedding and its properties

    The development embeds [src/recommender.py] (class [FertilizerRecommender])
    and the three catalog lookups of [src/database.py] that it calls.

    Modelling conventions.
    - Python numbers are exact rationals ([Q]); the integer columns of the
      [crops] table are [Z] and are injected into [Q] where Python's true
      division turns them into floats.  Rounding error of binary floating
      point is not modelled.
    - A Python exception is a value of type [exn]; a function that may raise
      returns [result A].  Every [/] of the source whose divisor is not a
      non-zero literal goes through [py_div], which raises
      [ZeroDivisionError] on a zero divisor, as Python does for ints and
      floats alike.
    - Text is ASCII: [upper] and [lower] change the 26 letters only, which is
      what [str.upper] and SQLite's [LOWER] do on ASCII text.
    - [list.sort] is stable, also with [reverse=True]; it is modelled by a
      stable insertion sort. *)

From Stdlib Require Import List Bool Arith ZArith QArith Qabs Qround Lqa Lia.
From Stdlib Require Import Ascii String Sorting.Sorted Permutation.
Import ListNotations.

Local Open Scope Q_scope.

(** ** Python values and exceptions *)

Module Py.

Inductive exn : Type :=
| ZeroDivisionError
| IndexError.

Inductive result (A : Type) : Type :=
| Ok (a : A)
| Raise (e : exn).

Arguments Ok {A} a.
Arguments Raise {A} e.

Definition bind {A B : Type} (m : result A) (k : A -> result B) : result B :=
  match m with
  | Ok a => k a
  | Raise e => Raise e
  end.

(** Truth value of a number: zero is false. *)
Definition truthy (x : Q) : bool := negb (Qeq_bool x 0).

(** Truth value of an optional number: [None] and zero are false. *)
Definition truthy_opt (x : option Q) : bool :=
  match x with
  | Some v => truthy v
  | None => false
  end.

Definition Qlt_bool (x y : Q) : bool := negb (Qle_bool y x).

(** [x / y] *)
Definition py_div (x y : Q) : result Q :=
  if Qeq_bool y 0 then Raise ZeroDivisionError else Ok (x / y).

(** [min(x, y)]: the first of the smallest. *)
Definition py_min (x y : Q) : Q := if Qlt_bool y x then y else x.

(** [max(x, y)]: the first of the largest. *)
Definition py_max (x y : Q) : Q := if Qlt_bool x y then y else x.

(** [round(x, ndigits)]: to the nearest multiple of [10^-ndigits], a tie
    going to the even one. *)
Definition py_round (x : Q) (ndigits : nat) : Q :=
  let m := (10 ^ Z.of_nat ndigits)%Z in
  let y := x * inject_Z m in
  let n := Qfloor y in
  let r := y - inject_Z n in
  let up := inject_Z (n + 1) / inject_Z m in
  let down := inject_Z n / inject_Z m in
  if Qlt_bool r (1 # 2) then down
  else if Qlt_bool (1 # 2) r then up
  else if Z.even n then down else up.

(** [l[i:j]] for [0 <= i <= j]. *)
Definition slice {A : Type} (i j : nat) (l : list A) : list A :=
  firstn (j - i) (skipn i l).

Section Sort.
Context {A : Type}.
(** [before x y]: [x], which stood earlier in the list, stays ahead of
    [y]. *)
Variable before : A -> A -> bool.

Fixpoint insert (x : A) (l : list A) : list A :=
  match l with
  | [] => [x]
  | y :: l' => if before x y then x :: y :: l' else y :: insert x l'
  end.

Fixpoint sort (l : list A) : list A :=
  match l with
  | [] => []
  | x :: l' => insert x (sort l')
  end.
End Sort.

(** [l.sort(key=key)] *)
Definition sort_by_key {A : Type} (key : A -> Q) (l : list A) : list A :=
  sort (fun x y => Qle_bool (key x) (key y)) l.

(** [l.sort(key=key, reverse=True)] *)
Definition sort_by_key_reverse {A : Type} (key : A -> Q) (l : list A)
  : list A :=
  sort (fun x y => Qle_bool (key y) (key x)) l.

(** ASCII case mapping. *)
Definition upper_ascii (c : ascii) : ascii :=
  let n := nat_of_ascii c in
  if ((97 <=? n) && (n <=? 122))%nat then ascii_of_nat (n - 32) else c.

Definition lower_ascii (c : ascii) : ascii :=
  let n := nat_of_ascii c in
  if ((65 <=? n) && (n <=? 90))%nat then ascii_of_nat (n + 32) else c.

Fixpoint map_string (f : ascii -> ascii) (s : string) : string :=
  match s with
  | EmptyString => EmptyString
  | String c s' => String (f c) (map_string f s')
  end.

(** [s.upper()] *)
Definition upper (s : string) : string := map_string upper_ascii s.

(** [LOWER(s)] *)
Definition lower (s : string) : string := map_string lower_ascii s.

(** [needle in hay] on strings. *)
Fixpoint contains (needle hay : string) : bool :=
  match hay with
  | EmptyString => String.prefix needle hay
  | String _ hay' => String.prefix needle hay || contains needle hay'
  end.

End Py.

Import Py.

Notation "x <- m ;; k" := (bind m (fun x => k))
  (at level 61, m at next level, right associativity).

(** ** The catalog ([src/database.py]) *)

Module Database.

(** A row of [crops].  The columns [crop_id], [growth_stages] and
    [description] are never read by the engine and are left out. *)
Record Crop : Type := {
  crop_name : string;
  nitrogen_requirement : Z;
  phosphorus_requirement : Z;
  potassium_requirement : Z
}.

(** A row of [soils]; the engine reads [soil_type] only. *)
Record Soil : Type := {
  soil_type : string;
  ph_range : string;
  water_retention : string
}.

(** A row of [fertilizers]. *)
Record Fertilizer : Type := {
  product_name : string;
  nitrogen_content : Q;
  phosphorus_content : Q;
  potassium_content : Q;
  price_per_kg : Q;
  availability : string;
  application_notes : string
}.

(** The three tables, rows in insertion order. *)
Record FertilizerDatabase : Type := {
  crops : list Crop;
  soils : list Soil;
  fertilizers : list Fertilizer
}.

(** [SELECT * FROM crops WHERE LOWER(crop_name) = LOWER(?)], first row. *)
Definition get_crop_by_name (db : FertilizerDatabase) (name : string)
  : option Crop :=
  find (fun c => String.eqb (lower (crop_name c)) (lower name)) (crops db).

(** [SELECT * FROM soils WHERE LOWER(soil_type) = LOWER(?)], first row. *)
Definition get_soil_by_type (db : FertilizerDatabase) (name : string)
  : option Soil :=
  find (fun s => String.eqb (lower (soil_type s)) (lower name)) (soils db).

(** [SELECT * FROM fertilizers ORDER BY price_per_kg]; rows of equal price
    are taken to keep their insertion order. *)
Definition get_all_fertilizers (db : FertilizerDatabase) : list Fertilizer :=
  sort_by_key price_per_kg (fertilizers db).

End Database.

Import Database.

(** ** The engine ([src/recommender.py]) *)

Module Recommender.

Local Open Scope string_scope.

(** [self.standard_rates]: kg per acre, in the dict's insertion order. *)
Definition standard_rates : list (string * Z) :=
  [ ("DAP", 50%Z); ("CAN", 50%Z); ("NPK", 50%Z); ("Urea", 50%Z);
    ("TSP", 50%Z); ("Manure", 2000%Z); ("Compost", 2000%Z) ].

(** The [for key, rate in ...items()] loop with its [break];
    [rate_per_acre] is the value held when the loop is entered. *)
Fixpoint scan_rates (table : list (string * Z)) (fertilizer_name : string)
    (rate_per_acre : Z) : Z :=
  match table with
  | [] => rate_per_acre
  | (key, rate) :: rest =>
      if contains (upper key) (upper fertilizer_name) then rate
      else scan_rates rest fertilizer_name rate_per_acre
  end.

Definition get_fertilizer_rate (fertilizer_name : string)
    (farm_size_acres : Q) : Q :=
  let rate_per_acre := scan_rates standard_rates fertilizer_name 50%Z in
  inject_Z rate_per_acre * farm_size_acres.

Local Close Scope string_scope.

(** [crop["nitrogen_requirement"] + crop["phosphorus_requirement"]
     + crop["potassium_requirement"]], the divisor of lines 42 to 44. *)
Definition crop_total (crop : Crop) : Q :=
  inject_Z (nitrogen_requirement crop + phosphorus_requirement crop
            + potassium_requirement crop).

(** Lines 46 to 54: the score after the nutrient-ratio term. *)
Definition npk_term (crop_n_ratio crop_p_ratio crop_k_ratio : Q)
    (fertilizer : Fertilizer) (score : Q) : result Q :=
  let total_npk := nitrogen_content fertilizer
                   + phosphorus_content fertilizer
                   + potassium_content fertilizer in
  if Qlt_bool 0 total_npk then
    fert_n_ratio <- py_div (nitrogen_content fertilizer) total_npk ;;
    fert_p_ratio <- py_div (phosphorus_content fertilizer) total_npk ;;
    fert_k_ratio <- py_div (potassium_content fertilizer) total_npk ;;
    let ratio_diff := Qabs (crop_n_ratio - fert_n_ratio)
                      + Qabs (crop_p_ratio - fert_p_ratio)
                      + Qabs (crop_k_ratio - fert_k_ratio) in
    let npk_penalty := ratio_diff * 30 in
    Ok (score - py_min npk_penalty 60)
  else Ok score.

(** Lines 57 to 61: the score after the budget term. *)
Definition budget_term (fertilizer : Fertilizer) (budget_per_kg : option Q)
    (score : Q) : result Q :=
  match budget_per_kg with
  | Some b =>
      if truthy b then
        if Qlt_bool b (price_per_kg fertilizer) then
          let price_diff := price_per_kg fertilizer - b in
          q <- py_div price_diff b ;;
          let price_penalty := q * 40 in
          Ok (score - py_min price_penalty 40)
        else Ok score
      else Ok score
  | None => Ok score
  end.

Definition score_fertilizer (crop : Crop) (fertilizer : Fertilizer)
    (budget_per_kg : option Q) : result Q :=
  let score := 100 in
  crop_n_ratio <-
    py_div (inject_Z (nitrogen_requirement crop)) (crop_total crop) ;;
  crop_p_ratio <-
    py_div (inject_Z (phosphorus_requirement crop)) (crop_total crop) ;;
  crop_k_ratio <-
    py_div (inject_Z (potassium_requirement crop)) (crop_total crop) ;;
  score <- npk_term crop_n_ratio crop_p_ratio crop_k_ratio fertilizer score ;;
  score <- budget_term fertilizer budget_per_kg score ;;
  Ok (py_max score 0).

(** An entry of [scored_fertilizers]. *)
Record ScoredFertilizer : Type := {
  fertilizer : Fertilizer;
  score : Q;
  application_rate_kg : Q;
  total_cost : Q;
  cost_per_acre : Q
}.

(** Lines 81 to 84. *)
Definition derive_budget_per_kg (budget_total : option Q)
    (farm_size_acres : Q) : result (option Q) :=
  match budget_total with
  | Some b =>
      if truthy b && truthy farm_size_acres then
        let estimated_kg := 50 * farm_size_acres in
        q <- py_div b estimated_kg ;;
        Ok (Some q)
      else Ok None
  | None => Ok None
  end.

(** Lines 87 to 102: the loop that fills [scored_fertilizers]. *)
Fixpoint score_all (crop : Crop) (farm_size_acres : Q)
    (budget_per_kg : option Q) (all_fertilizers : list Fertilizer)
  : result (list ScoredFertilizer) :=
  match all_fertilizers with
  | [] => Ok []
  | fert :: rest =>
      let application_rate :=
        get_fertilizer_rate (product_name fert) farm_size_acres in
      let total_cost := application_rate * price_per_kg fert in
      score <- score_fertilizer crop fert budget_per_kg ;;
      per_acre <- py_div total_cost farm_size_acres ;;
      let entry := {| fertilizer := fert;
                      score := score;
                      application_rate_kg := application_rate;
                      total_cost := py_round total_cost 2;
                      cost_per_acre := py_round per_acre 2 |} in
      scored <- score_all crop farm_size_acres budget_per_kg rest ;;
      Ok (entry :: scored)
  end.

(** Line 105. *)
Definition sort_by_score (scored : list ScoredFertilizer)
  : list ScoredFertilizer :=
  sort_by_key_reverse score scored.

(** Lines 108 to 110. *)
Definition filter_affordable (budget_total : option Q)
    (scored : list ScoredFertilizer) : list ScoredFertilizer :=
  match budget_total with
  | Some b =>
      if truthy b then
        filter (fun f => Qle_bool (total_cost f) b) scored
      else scored
  | None => scored
  end.

(** Lines 112 to 115.  The fallback sorts [scored_fertilizers] in place,
    so the pair returned is [(scored_fertilizers, affordable)] as both
    stand after line 115. *)
Definition cheapest_fallback (scored affordable : list ScoredFertilizer)
  : list ScoredFertilizer * list ScoredFertilizer :=
  match affordable with
  | [] => let scored' := sort_by_key total_cost scored in
          (scored', slice 0 3 scored')
  | _ :: _ => (scored, affordable)
  end.

(** Lines 118 to 121: [(top_choice, alternatives)]. *)
Definition choose (scored affordable : list ScoredFertilizer)
  : result (ScoredFertilizer * list ScoredFertilizer) :=
  match affordable with
  | [] => Raise IndexError
  | top_choice :: _ =>
      Ok (top_choice,
          if (1 <? List.length affordable)%nat then slice 1 4 affordable
          else slice 1 4 scored)
  end.

(** The [npk] field: the three contents that the f-string joins with
    dashes. *)
Definition npk_of (f : Fertilizer) : Q * Q * Q :=
  (nitrogen_content f, phosphorus_content f, potassium_content f).

Record PrimaryRecommendation : Type := {
  fertilizer_name : string;
  npk : Q * Q * Q;
  quantity_kg : Q;
  quantity_bags : Q;
  primary_total_cost : Q;
  primary_cost_per_acre : Q;
  primary_price_per_kg : Q;
  primary_score : Q;
  primary_application_notes : string
}.

Record Alternative : Type := {
  alt_fertilizer_name : string;
  alt_npk : Q * Q * Q;
  alt_quantity_kg : Q;
  alt_total_cost : Q;
  alt_cost_per_acre : Q
}.

Record Recommendation : Type := {
  crop : string;
  soil : string;
  farm_size_acres : Q;
  budget_total : option Q;
  primary_recommendation : PrimaryRecommendation;
  alternatives : list Alternative;
  within_budget : bool
}.

(** The dict that [get_recommendation] returns: either the single key
    ["error"], or the seven keys of a recommendation. *)
Inductive Response : Type :=
| ErrorDict (error : string)
| RecommendationDict (r : Recommendation).

Definition primary_of (top_choice : ScoredFertilizer)
  : PrimaryRecommendation :=
  {| fertilizer_name := product_name (fertilizer top_choice);
     npk := npk_of (fertilizer top_choice);
     quantity_kg := application_rate_kg top_choice;
     quantity_bags := py_round (application_rate_kg top_choice / 50) 1;
     primary_total_cost := total_cost top_choice;
     primary_cost_per_acre := cost_per_acre top_choice;
     primary_price_per_kg := price_per_kg (fertilizer top_choice);
     primary_score := py_round (score top_choice) 1;
     primary_application_notes :=
       application_notes (fertilizer top_choice) |}.

Definition alternative_of (alt : ScoredFertilizer) : Alternative :=
  {| alt_fertilizer_name := product_name (fertilizer alt);
     alt_npk := npk_of (fertilizer alt);
     alt_quantity_kg := application_rate_kg alt;
     alt_total_cost := total_cost alt;
     alt_cost_per_acre := cost_per_acre alt |}.

(** Line 150. *)
Definition within_budget_of (top_choice : ScoredFertilizer)
    (budget_total : option Q) : bool :=
  match budget_total with
  | Some b => if truthy b then Qle_bool (total_cost top_choice) b else true
  | None => true
  end.

(** Lines 104 to 121: from the filled [scored_fertilizers] to
    [(top_choice, alternatives)]. *)
Definition select (budget_total : option Q)
    (scored_fertilizers : list ScoredFertilizer)
  : result (ScoredFertilizer * list ScoredFertilizer) :=
  let scored := sort_by_score scored_fertilizers in
  let affordable := filter_affordable budget_total scored in
  let '(scored, affordable) := cheapest_fallback scored affordable in
  choose scored affordable.

Definition get_recommendation (db : FertilizerDatabase)
    (crop_name soil_type : string) (farm_size_acres : Q)
    (budget_total : option Q) : result Response :=
  let crop := get_crop_by_name db crop_name in
  let soil := get_soil_by_type db soil_type in
  match crop with
  | None => Ok (ErrorDict ("Crop " ++ crop_name ++ " not found")%string)
  | Some crop =>
  match soil with
  | None => Ok (ErrorDict ("Soil " ++ soil_type ++ " not found")%string)
  | Some soil =>
      let all_fertilizers := get_all_fertilizers db in
      budget_per_kg <- derive_budget_per_kg budget_total farm_size_acres ;;
      scored_fertilizers <-
        score_all crop farm_size_acres budget_per_kg all_fertilizers ;;
      chosen <- select budget_total scored_fertilizers ;;
      let '(top_choice, alternatives) := chosen in
      Ok (RecommendationDict
            {| crop := Database.crop_name crop;
               soil := Database.soil_type soil;
               farm_size_acres := farm_size_acres;
               budget_total := budget_total;
               primary_recommendation := primary_of top_choice;
               alternatives := map alternative_of alternatives;
               within_budget := within_budget_of top_choice budget_total |})
  end
  end.

End Recommender.

Import Recommender.

(** ** The sample catalog of [init_database.py] *)

Module Sample.

Local Open Scope string_scope.

Definition maize : Crop :=
  {| crop_name := "Maize"; nitrogen_requirement := 120;
     phosphorus_requirement := 60; potassium_requirement := 60 |}.

Definition beans : Crop :=
  {| crop_name := "Beans"; nitrogen_requirement := 30;
     phosphorus_requirement := 40; potassium_requirement := 40 |}.

(** Not a row of the sample data: a crop that asks for no nutrient. *)
Definition fallow : Crop :=
  {| crop_name := "Fallow"; nitrogen_requirement := 0;
     phosphorus_requirement := 0; potassium_requirement := 0 |}.

Definition loam : Soil :=
  {| soil_type := "Loam"; ph_range := "6.0-7.0";
     water_retention := "Medium" |}.

Definition mk (name : string) (n p k price : Q) (avail notes : string)
  : Fertilizer :=
  {| product_name := name; nitrogen_content := n; phosphorus_content := p;
     potassium_content := k; price_per_kg := price; availability := avail;
     application_notes := notes |}.

Definition dap := mk "DAP 18:46:0" 18 46 0 120 "Widely available"
  "Best for basal application. High phosphorus content.".
Definition can := mk "CAN 26:0:0" 26 0 0 90 "Widely available"
  "For top dressing. Quick nitrogen release.".
Definition npk17 := mk "NPK 17:17:17" 17 17 17 110 "Widely available"
  "Balanced fertilizer for most crops.".
Definition npk23 := mk "NPK 23:23:0" 23 23 0 115 "Common"
  "Good for cereals. No potassium.".
Definition urea := mk "Urea 46:0:0" 46 0 0 85 "Very common"
  "High nitrogen. Apply carefully to avoid burning.".
Definition tsp := mk "TSP 0:46:0" 0 46 0 100 "Available"
  "Pure phosphorus source. Excellent for legumes.".
Definition manure := mk "Manure" (3 # 2) 1 (3 # 2) 20 "Locally available"
  "Organic option. Improves soil structure. Apply well-rotted.".
Definition compost := mk "Compost" 2 (3 # 2) 2 15 "Can be made on-farm"
  "Organic fertilizer. Improves soil health.".

Definition sample_db : FertilizerDatabase :=
  {| crops := [maize; beans];
     soils := [loam];
     fertilizers := [dap; can; npk17; npk23; urea; tsp; manure; compost] |}.

(** The same crops and soils with no fertilizer on offer. *)
Definition empty_catalog_db : FertilizerDatabase :=
  {| crops := [maize; beans; fallow]; soils := [loam]; fertilizers := [] |}.

(** The sample catalog with the crop that asks for nothing added. *)
Definition fallow_db : FertilizerDatabase :=
  {| crops := [maize; beans; fallow];
     soils := [loam];
     fertilizers := [dap; can; npk17; npk23; urea; tsp; manure; compost] |}.

(** Two products of one nutrient ratio, 3:2:3, the dearer per kg being the
    cheaper per acre. *)
Definition blend := mk "NPK 3:2:3" 3 2 3 100 "Common" "Balanced blend.".

Definition tie_db : FertilizerDatabase :=
  {| crops := [maize]; soils := [loam]; fertilizers := [manure; blend] |}.

End Sample.

(** ** The conversation state ([src/chatbot.py]) *)

Module Chatbot.

(** [self.user_data]: the four keys, [None] until something is heard. *)
Record UserData : Type := {
  crop : option string;
  soil : option string;
  acres : option Q;
  budget : option Q
}.

(** The part of a [FertilizerChatbot] that [extract_info],
    [check_ready_for_recommendation] and [reset] read and write.  The
    language model, its prompt and [conversation_history], which no method
    ever appends to, are left out. *)
Record FertilizerChatbot : Type := {
  crops : list string;
  soils : list string;
  user_data : UserData
}.

(** [SELECT * FROM crops] and [SELECT * FROM soils], rows in table order. *)
Definition get_all_crops (db : FertilizerDatabase) : list Crop :=
  Database.crops db.

Definition get_all_soils (db : FertilizerDatabase) : list Soil :=
  Database.soils db.

Definition no_user_data : UserData :=
  {| crop := None; soil := None; acres := None; budget := None |}.

(** Lines 33 to 38 and 61 to 66 of [__init__]. *)
Definition init (db : FertilizerDatabase) : FertilizerChatbot :=
  {| crops := map crop_name (get_all_crops db);
     soils := map soil_type (get_all_soils db);
     user_data := no_user_data |}.

(** What [str.split()] takes for white space among the ASCII characters:
    tab to carriage return, the four separators 28 to 31, and the space. *)
Definition is_space (c : ascii) : bool :=
  let n := nat_of_ascii c in
  ((9 <=? n) && (n <=? 13) || (28 <=? n) && (n <=? 31) || (n =? 32))%nat.

(** [s.split()], reading [s] from the left; [word] is the word being read,
    if one has begun. *)
Fixpoint split_from (s : string) (word : option string) : list string :=
  match s with
  | EmptyString =>
      match word with
      | Some w => [w]
      | None => []
      end
  | String c s' =>
      if is_space c then
        match word with
        | Some w => w :: split_from s' None
        | None => split_from s' None
        end
      else
        match word with
        | Some w => split_from s' (Some (w ++ String c EmptyString)%string)
        | None => split_from s' (Some (String c EmptyString))
        end
  end.

Definition split (s : string) : list string := split_from s None.

(** [s.replace(",", "")] *)
Fixpoint remove_commas (s : string) : string :=
  match s with
  | EmptyString => EmptyString
  | String c s' =>
      if Ascii.eqb c "," then remove_commas s'
      else String c (remove_commas s')
  end.

(** The loops of lines 73 to 76 and 79 to 82: the first name of the list
    whose lower-case form occurs in the message. *)
Fixpoint first_mentioned (names : list string) (message_lower : string)
  : option string :=
  match names with
  | [] => None
  | name :: rest =>
      if contains (lower name) message_lower then Some name
      else first_mentioned rest message_lower
  end.

(** [word in units] *)
Definition word_in (word : string) (units : list string) : bool :=
  existsb (String.eqb word) units.

Section Numbers.

(** [float(s)]: [None] stands for the [ValueError] that the bare [except]
    swallows.  The results [inf] and [nan] have no rational value and are
    not covered. *)
Variable py_float : string -> option Q.

(** The loops of lines 86 to 91 and 94 to 101 from the second word on:
    [prev] is [words[i-1]], [current] the value of the key so far. *)
Fixpoint scan_units (units : list string) (clean : string -> string)
    (prev : string) (words : list string) (current : option Q) : option Q :=
  match words with
  | [] => current
  | word :: rest =>
      let current' :=
        if word_in word units then
          match py_float (clean prev) with
          | Some v => Some v
          | None => current
          end
        else current in
      scan_units units clean word rest current'
  end.

(** The same loops from the first word, which has no predecessor. *)
Definition scan_words (units : list string) (clean : string -> string)
    (words : list string) (current : option Q) : option Q :=
  match words with
  | [] => current
  | first :: rest => scan_units units clean first rest current
  end.

Definition acre_words : list string := ["acre"; "acres"; "ac"]%string.

Definition money_words : list string :=
  ["kes"; "ksh"; "shillings"; "bob"]%string.

Definition extract_info (bot : FertilizerChatbot) (user_message : string)
  : FertilizerChatbot :=
  let message_lower := lower user_message in
  let data := user_data bot in
  let crop' :=
    match first_mentioned (crops bot) message_lower with
    | Some name => Some name
    | None => crop data
    end in
  let soil' :=
    match first_mentioned (soils bot) message_lower with
    | Some name => Some name
    | None => soil data
    end in
  let words := split message_lower in
  let acres' := scan_words acre_words (fun w => w) words (acres data) in
  let budget' := scan_words money_words remove_commas words (budget data) in
  {| crops := crops bot;
     soils := soils bot;
     user_data := {| crop := crop'; soil := soil';
                     acres := acres'; budget := budget' |} |}.

End Numbers.

Definition check_ready_for_recommendation (bot : FertilizerChatbot) : bool :=
  match crop (user_data bot), soil (user_data bot), acres (user_data bot) with
  | Some _, Some _, Some _ => true
  | _, _, _ => false
  end.

Definition reset (bot : FertilizerChatbot) : FertilizerChatbot :=
  {| crops := crops bot; soils := soils bot; user_data := no_user_data |}.

(** Lines 111 to 116 of [get_recommendation_text], which [chat] reaches
    only when the bot is ready: the call of the engine with what was
    heard.  The text made of the answer is not modelled. *)
Definition call_engine (db : FertilizerDatabase) (bot : FertilizerChatbot)
  : option (result Response) :=
  match crop (user_data bot), soil (user_data bot), acres (user_data bot) with
  | Some c, Some s, Some a =>
      Some (get_recommendation db c s a (budget (user_data bot)))
  | _, _, _ => None
  end.

(** A run of [chat] calls, as far as the state goes: [extract_info] on
    each message in turn. *)
Definition hear (py_float : string -> option Q) (bot : FertilizerChatbot)
    (messages : list string) : FertilizerChatbot :=
  fold_left (extract_info py_float) messages bot.

(** A reader of unsigned decimal numerals, for examples: the digits, with
    at most one point among them. *)
Fixpoint read_digits (s : string) (num : Z) (den : positive)
    (seen_point seen_digit : bool) : option Q :=
  match s with
  | EmptyString => if seen_digit then Some (num # den) else None
  | String c s' =>
      let n := nat_of_ascii c in
      if ((48 <=? n) && (n <=? 57))%nat then
        read_digits s' (10 * num + Z.of_nat (n - 48))%Z
          (if seen_point then (10 * den)%positive else den) seen_point true
      else if Ascii.eqb c "." && negb seen_point then
        read_digits s' num den true seen_digit
      else None
  end.

Definition read_decimal (s : string) : option Q :=
  read_digits s 0%Z 1%positive false false.

End Chatbot.

(** ** Filling the catalog ([init_database.py]) *)

Module InitDatabase.

Local Open Scope string_scope.

Definition potatoes : Crop :=
  {| crop_name := "Potatoes"; nitrogen_requirement := 150;
     phosphorus_requirement := 80; potassium_requirement := 180 |}.

Definition tomatoes : Crop :=
  {| crop_name := "Tomatoes"; nitrogen_requirement := 140;
     phosphorus_requirement := 60; potassium_requirement := 180 |}.

Definition wheat : Crop :=
  {| crop_name := "Wheat"; nitrogen_requirement := 100;
     phosphorus_requirement := 50; potassium_requirement := 50 |}.

Definition clay : Soil :=
  {| soil_type := "Clay"; ph_range := "6.0-7.5"; water_retention := "High" |}.

Definition sandy : Soil :=
  {| soil_type := "Sandy"; ph_range := "5.5-7.0"; water_retention := "Low" |}.

(** The three lists of [insert_sample_data]. *)
Definition sample_crops : list Crop :=
  [Sample.maize; Sample.beans; potatoes; tomatoes; wheat].

Definition sample_soils : list Soil := [clay; Sample.loam; sandy].

Definition sample_fertilizers : list Fertilizer :=
  [Sample.dap; Sample.can; Sample.npk17; Sample.npk23; Sample.urea;
   Sample.tsp; Sample.manure; Sample.compost].

(** [INSERT OR IGNORE] into a table with a [UNIQUE] text column: a row
    whose value in that column is in the table already, letter for letter,
    is dropped; any other row goes to the end. *)
Definition insert_or_ignore {A : Type} (unique : A -> string)
    (table : list A) (row : A) : list A :=
  if existsb (fun x => String.eqb (unique x) (unique row)) table
  then table else table ++ [row].

(** [INSERT OR IGNORE INTO crops]: [crop_name] is [UNIQUE]. *)
Definition insert_or_ignore_crop (table : list Crop) (row : Crop)
  : list Crop :=
  insert_or_ignore crop_name table row.

(** [INSERT OR IGNORE INTO soils]: [soil_type] is [UNIQUE]. *)
Definition insert_or_ignore_soil (table : list Soil) (row : Soil)
  : list Soil :=
  insert_or_ignore soil_type table row.

(** [INSERT OR IGNORE INTO fertilizers]: the table has no constraint but
    its generated key, so no row is ever dropped. *)
Definition insert_or_ignore_fertilizer (table : list Fertilizer)
    (row : Fertilizer) : list Fertilizer :=
  table ++ [row].

(** The empty tables that [create_database] makes where there are none. *)
Definition create_database : FertilizerDatabase :=
  {| crops := []; soils := []; fertilizers := [] |}.

(** The three [executemany] calls. *)
Definition insert_sample_data (db : FertilizerDatabase)
  : FertilizerDatabase :=
  {| crops := fold_left insert_or_ignore_crop sample_crops (crops db);
     soils := fold_left insert_or_ignore_soil sample_soils (soils db);
     fertilizers :=
       fold_left insert_or_ignore_fertilizer sample_fertilizers
         (fertilizers db) |}.

End InitDatabase.

(** ** Vocabulary of the statements *)

Module Spec.

(** [key] occurs in [name] when case is ignored. *)
Definition occurs_ignoring_case (key name : string) : Prop :=
  exists pre post, upper name = (pre ++ upper key ++ post)%string.

(** The ceiling the scorer is specified for: absent, or positive. *)
Definition ceiling_ok (bpk : option Q) : Prop :=
  match bpk with
  | Some b => 0 < b
  | None => True
  end.

(** [l1] is [l2] with some entries left out, the others in place. *)
Inductive subseq {A : Type} : list A -> list A -> Prop :=
| subseq_nil : subseq [] []
| subseq_keep (x : A) (l1 l2 : list A) :
    subseq l1 l2 -> subseq (x :: l1) (x :: l2)
| subseq_drop (x : A) (l1 l2 : list A) :
    subseq l1 l2 -> subseq l1 (x :: l2).

(** The entries whose score equals [s]. *)
Definition with_score (s : Q) (l : list ScoredFertilizer)
  : list ScoredFertilizer :=
  filter (fun c => Qeq_bool (score c) s) l.

(** Entries of [shown] that have the same score stand in the order they
    have in [catalog]. *)
Definition ties_keep_catalog_order (catalog shown : list ScoredFertilizer)
  : Prop :=
  forall s, subseq (with_score s shown) (with_score s catalog).

(** What the loop records for one fertilizer, the score apart. *)
Definition entry_of (farm : Q) (f : Fertilizer) (c : ScoredFertilizer)
  : Prop :=
  fertilizer c = f
  /\ application_rate_kg c = get_fertilizer_rate (product_name f) farm
  /\ total_cost c =
       py_round (get_fertilizer_rate (product_name f) farm * price_per_kg f) 2.

End Spec.

Import Spec.

Module ChatSpec.

(** The lower-case form of [name] occurs in the lower-case form of
    [message]. *)
Definition mentions (name message : string) : Prop :=
  exists pre post, lower message = (pre ++ lower name ++ post)%string.

(** No key of the user data that holds a value in [before] is empty in
    [after]. *)
Definition keeps_what_was_heard (before after : Chatbot.UserData) : Prop :=
  (Chatbot.crop before <> None -> Chatbot.crop after <> None)
  /\ (Chatbot.soil before <> None -> Chatbot.soil after <> None)
  /\ (Chatbot.acres before <> None -> Chatbot.acres after <> None)
  /\ (Chatbot.budget before <> None -> Chatbot.budget after <> None).

End ChatSpec.

Import ChatSpec.

(** * Properties *)

(** ** Numbers *)

Lemma Qlt_bool_iff (x y : Q) : Qlt_bool x y = true <-> x < y.
Proof.
  unfold Qlt_bool. rewrite negb_true_iff, <- not_true_iff_false, Qle_bool_iff.
  split; [apply Qnot_le_lt | apply Qlt_not_le].
Qed.

Lemma Qlt_bool_false_iff (x y : Q) : Qlt_bool x y = false <-> y <= x.
Proof.
  unfold Qlt_bool. rewrite negb_false_iff. apply Qle_bool_iff.
Qed.

Lemma Qle_bool_false_iff (x y : Q) : Qle_bool x y = false <-> y < x.
Proof.
  rewrite <- not_true_iff_false, Qle_bool_iff.
  split; [apply Qnot_le_lt | apply Qlt_not_le].
Qed.

Lemma truthy_iff (x : Q) : truthy x = true <-> ~ x == 0.
Proof.
  unfold truthy. rewrite negb_true_iff, <- not_true_iff_false, Qeq_bool_iff.
  tauto.
Qed.

Lemma truthy_false_iff (x : Q) : truthy x = false <-> x == 0.
Proof.
  unfold truthy. rewrite negb_false_iff. apply Qeq_bool_iff.
Qed.

Lemma py_div_ok (x y : Q) : ~ y == 0 -> py_div x y = Ok (x / y).
Proof.
  intros H. unfold py_div.
  destruct (Qeq_bool y 0) eqn:E; [apply Qeq_bool_iff in E; tauto | reflexivity].
Qed.

Lemma py_div_raise (x y : Q) : y == 0 -> py_div x y = Raise ZeroDivisionError.
Proof.
  intros H. unfold py_div. apply Qeq_bool_iff in H. now rewrite H.
Qed.

Lemma py_min_le_r (x y : Q) : py_min x y <= y.
Proof.
  unfold py_min. destruct (Qlt_bool y x) eqn:E.
  - apply Qle_refl.
  - now apply Qlt_bool_false_iff in E.
Qed.

Lemma py_min_nonneg (x y : Q) : 0 <= x -> 0 <= y -> 0 <= py_min x y.
Proof.
  intros Hx Hy. unfold py_min. now destruct (Qlt_bool y x).
Qed.

Lemma py_max_floor (x : Q) : 0 <= x -> py_max x 0 = x.
Proof.
  intros H. unfold py_max.
  destruct (Qlt_bool x 0) eqn:E; [|reflexivity].
  apply Qlt_bool_iff in E. lra.
Qed.

Lemma py_max_ge_r (x y : Q) : y <= py_max x y.
Proof.
  unfold py_max. destruct (Qlt_bool x y) eqn:E.
  - apply Qle_refl.
  - now apply Qlt_bool_false_iff in E.
Qed.

(** ** Strings *)

Lemma prefix_iff (k s : string) :
  String.prefix k s = true <-> exists post, s = (k ++ post)%string.
Proof.
  revert s. induction k as [|c k IH]; intros s.
  - split; [intros _; now exists s | intros _; now destruct s].
  - destruct s as [|d s]; simpl.
    + split; [discriminate | intros [post H]; discriminate].
    + destruct (ascii_dec c d) as [->|Hcd].
      * rewrite IH. split; intros [post H]; exists post.
        -- now rewrite H.
        -- now inversion H.
      * split; [discriminate | intros [post H]; inversion H; congruence].
Qed.

Lemma contains_iff (k s : string) :
  contains k s = true <-> exists pre post, s = (pre ++ k ++ post)%string.
Proof.
  induction s as [|c s IH].
  - change (contains k EmptyString) with (String.prefix k EmptyString).
    rewrite prefix_iff. split.
    + intros [post H]. now exists EmptyString, post.
    + intros [[|d pre] [post H]]; [now exists post | discriminate].
  - change (contains k (String c s))
      with (String.prefix k (String c s) || contains k s).
    rewrite orb_true_iff, IH, prefix_iff. split.
    + intros [[post H] | [pre [post H]]].
      * now exists EmptyString, post.
      * exists (String c pre), post. simpl. now rewrite H.
    + intros [[|d pre] [post H]].
      * left. now exists post.
      * right. exists pre, post. simpl in H. now inversion H.
Qed.

(** ** The rate resolver *)

Lemma scan_rates_first (table : list (string * Z)) (name : string) (d : Z) :
  forall (i : nat) (key : string) (rate : Z),
    nth_error table i = Some (key, rate) ->
    occurs_ignoring_case key name ->
    (forall j key' rate', (j < i)%nat ->
       nth_error table j = Some (key', rate') ->
       ~ occurs_ignoring_case key' name) ->
    scan_rates table name d = rate.
Proof.
  induction table as [|[k r] table IH]; intros i key rate Hi Hocc Hfirst.
  - destruct i; discriminate.
  - simpl. destruct (contains (upper k) (upper name)) eqn:E.
    + destruct i as [|i].
      * simpl in Hi. congruence.
      * exfalso. apply (Hfirst 0%nat k r); [lia | reflexivity |].
        now apply contains_iff.
    + destruct i as [|i].
      * simpl in Hi. inversion Hi; subst.
        apply contains_iff in Hocc. congruence.
      * apply (IH i key rate Hi Hocc).
        intros j key' rate' Hj Hnth.
        apply (Hfirst (S j) key' rate'); [lia | exact Hnth].
Qed.

Lemma scan_rates_default (table : list (string * Z)) (name : string) (d : Z) :
  (forall key rate, In (key, rate) table -> ~ occurs_ignoring_case key name) ->
  scan_rates table name d = d.
Proof.
  induction table as [|[k r] table IH]; intros Hnone; simpl.
  - reflexivity.
  - destruct (contains (upper k) (upper name)) eqn:E.
    + exfalso. apply (Hnone k r); [now left | now apply contains_iff].
    + apply IH. intros key rate Hin. apply (Hnone key rate). now right.
Qed.

(** C2: the resolver scans DAP, CAN, NPK, Urea, TSP, Manure, Compost in
    that order, takes the kg-per-acre rate of the first keyword that occurs
    in the product name when case is ignored (50 for the first five, 2000
    for Manure and Compost), takes 50 when no keyword occurs, and returns
    that rate times the farm size. *)
Theorem get_fertilizer_rate_first_keyword (name : string) (farm : Q) :
  standard_rates =
    [ ("DAP", 50%Z); ("CAN", 50%Z); ("NPK", 50%Z); ("Urea", 50%Z);
      ("TSP", 50%Z); ("Manure", 2000%Z); ("Compost", 2000%Z) ]%string
  /\ (forall i key rate,
        nth_error standard_rates i = Some (key, rate) ->
        occurs_ignoring_case key name ->
        (forall j key' rate', (j < i)%nat ->
           nth_error standard_rates j = Some (key', rate') ->
           ~ occurs_ignoring_case key' name) ->
        get_fertilizer_rate name farm = inject_Z rate * farm)
  /\ ((forall key rate, In (key, rate) standard_rates ->
         ~ occurs_ignoring_case key name) ->
      get_fertilizer_rate name farm = 50 * farm).
Proof.
  split; [reflexivity | split].
  - intros i key rate Hi Hocc Hfirst. unfold get_fertilizer_rate.
    now rewrite (scan_rates_first standard_rates name 50%Z i key rate
                   Hi Hocc Hfirst).
  - intros Hnone. unfold get_fertilizer_rate.
    now rewrite (scan_rates_default standard_rates name 50%Z Hnone).
Qed.

Lemma get_fertilizer_rate_first_keyword_witness :
  get_fertilizer_rate "Super compost with urea" 3 = inject_Z 50 * 3.
Proof.
  apply (proj1 (proj2 (get_fertilizer_rate_first_keyword
                         "Super compost with urea" 3)) 3%nat "Urea"%string).
  - reflexivity.
  - exists "SUPER COMPOST WITH "%string, EmptyString. reflexivity.
  - intros j key' rate' Hj Hnth Hocc. apply contains_iff in Hocc.
    destruct j as [|[|[|j]]]; [| | | lia];
      inversion Hnth; subst; vm_compute in Hocc; discriminate.
Defined.

(** ** The scorer *)

Lemma score_fertilizer_raises (c : Crop) (f : Fertilizer) (bpk : option Q) :
  crop_total c == 0 -> score_fertilizer c f bpk = Raise ZeroDivisionError.
Proof.
  intros H. unfold score_fertilizer. now rewrite (py_div_raise _ _ H).
Qed.

(** C1 (violated by the code): a crop whose three requirements are zero
    makes the scorer raise [ZeroDivisionError], whatever the fertilizer and
    the budget ceiling; no fallback score is returned. *)
Theorem score_fertilizer_zero_crop_raises
    (name : string) (f : Fertilizer) (bpk : option Q) :
  score_fertilizer
    {| crop_name := name; nitrogen_requirement := 0;
       phosphorus_requirement := 0; potassium_requirement := 0 |} f bpk
  = Raise ZeroDivisionError.
Proof.
  apply score_fertilizer_raises. reflexivity.
Qed.

Lemma npk_term_spec (a b c : Q) (f : Fertilizer) (s : Q) :
  exists s' pen,
    npk_term a b c f s = Ok s' /\ s' == s - pen /\ 0 <= pen /\ pen <= 60.
Proof.
  unfold npk_term.
  set (t := nitrogen_content f + phosphorus_content f + potassium_content f).
  destruct (Qlt_bool 0 t) eqn:E.
  - apply Qlt_bool_iff in E.
    assert (Ht : ~ t == 0) by lra.
    rewrite !(py_div_ok _ _ Ht). cbn [bind].
    eexists. eexists. split; [reflexivity | split; [reflexivity | split]].
    + apply py_min_nonneg; [|lra].
      pose proof (Qabs_nonneg (a - nitrogen_content f / t)).
      pose proof (Qabs_nonneg (b - phosphorus_content f / t)).
      pose proof (Qabs_nonneg (c - potassium_content f / t)).
      lra.
    + apply py_min_le_r.
  - exists s, 0. split; [reflexivity | split; lra].
Qed.

Lemma budget_term_spec (f : Fertilizer) (bpk : option Q) (s : Q) :
  ceiling_ok bpk ->
  exists s' pen,
    budget_term f bpk s = Ok s' /\ s' == s - pen /\ 0 <= pen /\ pen <= 40
    /\ (~ (exists b, bpk = Some b /\ b < price_per_kg f) -> pen == 0).
Proof.
  intros Hb. unfold budget_term. destruct bpk as [b|]; simpl in Hb.
  - assert (Hnz : ~ b == 0) by lra.
    rewrite (proj2 (truthy_iff b) Hnz).
    destruct (Qlt_bool b (price_per_kg f)) eqn:E.
    + apply Qlt_bool_iff in E. rewrite (py_div_ok _ _ Hnz). cbn [bind].
      eexists. eexists.
      split; [reflexivity | split; [reflexivity | split; [|split]]].
      * apply py_min_nonneg; [|lra].
        assert (0 <= (price_per_kg f - b) / b)
          by (apply Qle_shift_div_l; lra).
        lra.
      * apply py_min_le_r.
      * intros Hno. exfalso. apply Hno. now exists b.
    + exists s, 0. repeat split; try lra; try reflexivity.
  - exists s, 0. repeat split; try lra; try reflexivity.
Qed.

Lemma score_fertilizer_returns (c : Crop) (f : Fertilizer) (bpk : option Q) :
  ~ crop_total c == 0 -> exists s, score_fertilizer c f bpk = Ok s.
Proof.
  intros Hc. unfold score_fertilizer. rewrite !(py_div_ok _ _ Hc). cbn [bind].
  match goal with |- context [npk_term ?a ?b ?c f 100] =>
    destruct (npk_term_spec a b c f 100) as (s1 & p1 & -> & _) end.
  cbn [bind]. unfold budget_term.
  destruct bpk as [b|]; [|now eexists].
  destruct (truthy b) eqn:Eb; [|now eexists].
  destruct (Qlt_bool b (price_per_kg f)); [|now eexists].
  apply truthy_iff in Eb. rewrite (py_div_ok _ _ Eb). now eexists.
Qed.

Lemma score_fertilizer_ok_total (c : Crop) (f : Fertilizer) (bpk : option Q)
    (s : Q) :
  score_fertilizer c f bpk = Ok s -> ~ crop_total c == 0.
Proof.
  intros H Hz. rewrite (score_fertilizer_raises c f bpk Hz) in H.
  discriminate.
Qed.

(** C4: with a budget ceiling that is absent or positive, a score that the
    scorer returns lies in [0, 100]: it is 100 less a nutrient-ratio penalty
    of at most 60 and a budget penalty of at most 40, the latter being zero
    unless the price per kg exceeds the ceiling, so the floor at 0 leaves it
    unchanged; and the scorer returns a score for every crop whose
    requirements do not sum to zero. *)
Theorem score_fertilizer_range (c : Crop) (f : Fertilizer) (bpk : option Q) :
  ceiling_ok bpk ->
  (~ crop_total c == 0 -> exists s, score_fertilizer c f bpk = Ok s)
  /\ (forall s, score_fertilizer c f bpk = Ok s ->
        0 <= s /\ s <= 100
        /\ exists npk_penalty price_penalty,
             s == 100 - npk_penalty - price_penalty
             /\ 0 <= npk_penalty /\ npk_penalty <= 60
             /\ 0 <= price_penalty /\ price_penalty <= 40
             /\ (~ (exists b, bpk = Some b /\ b < price_per_kg f) ->
                 price_penalty == 0)).
Proof.
  intros Hb. split; [apply score_fertilizer_returns|].
  intros s Hs. pose proof (score_fertilizer_ok_total _ _ _ _ Hs) as Hc.
  unfold score_fertilizer in Hs. rewrite !(py_div_ok _ _ Hc) in Hs.
  cbn [bind] in Hs.
  match type of Hs with context [npk_term ?a ?b ?c f 100] =>
    destruct (npk_term_spec a b c f 100) as (s1 & p1 & E1 & Hs1 & Hp1 & Hp1')
  end.
  rewrite E1 in Hs. cbn [bind] in Hs.
  destruct (budget_term_spec f bpk s1 Hb)
    as (s2 & p2 & E2 & Hs2 & Hp2 & Hp2' & Honly).
  rewrite E2 in Hs. cbn [bind] in Hs. inversion Hs as [Hmax]. clear Hs.
  assert (H0 : 0 <= s2) by lra.
  rewrite (py_max_floor _ H0).
  split; [lra | split; [lra|]].
  exists p1, p2. repeat split; try assumption. lra.
Qed.

Lemma score_fertilizer_range_witness :
  exists s, score_fertilizer Sample.maize Sample.urea (Some 100) = Ok s
            /\ 0 <= s /\ s <= 100.
Proof.
  destruct (score_fertilizer_range Sample.maize Sample.urea (Some 100))
    as [Hret Hrange].
  - reflexivity.
  - destruct Hret as [s Hs]; [discriminate|].
    exists s. split; [exact Hs|].
    destruct (Hrange s Hs) as (H0 & H100 & _). now split.
Defined.

(** ** Sorting *)

Section SortFacts.

Context {A : Type}.
Variable before : A -> A -> bool.

Lemma insert_In (x y : A) (l : list A) :
  In y (insert before x l) <-> y = x \/ In y l.
Proof.
  induction l as [|z l IH]; simpl.
  - intuition.
  - destruct (before x z); simpl; [intuition | rewrite IH; intuition].
Qed.

Lemma sort_In (y : A) (l : list A) : In y (sort before l) <-> In y l.
Proof.
  induction l as [|x l IH]; simpl; [reflexivity|].
  rewrite insert_In, IH. intuition.
Qed.

Lemma sort_nil_inv (l : list A) : sort before l = [] -> l = [].
Proof.
  destruct l as [|x l]; [reflexivity|]. intros H. exfalso.
  assert (Hin : In x (sort before (x :: l))) by (apply sort_In; now left).
  rewrite H in Hin. exact Hin.
Qed.

(** Counting is blind to the order. *)
Lemma filter_insert_length (p : A -> bool) (x : A) (l : list A) :
  List.length (filter p (insert before x l)) = List.length (filter p (x :: l)).
Proof.
  induction l as [|z l IH]; [reflexivity|].
  simpl. destruct (before x z); [reflexivity|].
  simpl in *. destruct (p z), (p x); simpl in *; lia.
Qed.

Lemma filter_sort_length (p : A -> bool) (l : list A) :
  List.length (filter p (sort before l)) = List.length (filter p l).
Proof.
  induction l as [|x l IH]; [reflexivity|].
  simpl sort. rewrite filter_insert_length. simpl.
  destruct (p x); simpl; lia.
Qed.

Lemma sort_length (l : list A) : List.length (sort before l) = List.length l.
Proof.
  pose proof (filter_sort_length (fun _ => true) l) as H.
  assert (Hall : forall k : list A, filter (fun _ => true) k = k).
  { induction k as [|z k IHk]; simpl; congruence. }
  now rewrite !Hall in H.
Qed.

(** Stability: the entries of a class [p] whose members are never moved
    past one another keep their order. *)
Section Stable.

Variable p : A -> bool.
Hypothesis p_tied :
  forall x y, p x = true -> p y = true -> before x y = true.

Lemma filter_insert_tied (x : A) (l : list A) :
  filter p (insert before x l) = filter p (x :: l).
Proof.
  induction l as [|z l IH]; [reflexivity|].
  simpl. destruct (before x z) eqn:E; [reflexivity|].
  simpl in *. rewrite IH.
  destruct (p x) eqn:Ex, (p z) eqn:Ez; try reflexivity.
  rewrite (p_tied x z Ex Ez) in E. discriminate.
Qed.

Lemma filter_sort_tied (l : list A) :
  filter p (sort before l) = filter p l.
Proof.
  induction l as [|x l IH]; [reflexivity|].
  simpl sort. rewrite filter_insert_tied. simpl. now rewrite IH.
Qed.

End Stable.

(** Order: the head of a sorted list is ahead of every entry. *)
Section Ordered.

Hypothesis before_total :
  forall x y, before x y = false -> before y x = true.
Hypothesis before_trans :
  forall x y z, before x y = true -> before y z = true -> before x z = true.

Lemma insert_sorted (x : A) (l : list A) :
  StronglySorted (fun a b => before a b = true) l ->
  StronglySorted (fun a b => before a b = true) (insert before x l).
Proof.
  induction 1 as [|z l Hs IH Hz]; simpl.
  - constructor; constructor.
  - destruct (before x z) eqn:E.
    + constructor; [now constructor|].
      constructor; [exact E|].
      rewrite Forall_forall in *. intros w Hw.
      apply (before_trans x z w E (Hz w Hw)).
    + constructor; [exact IH|].
      rewrite Forall_forall in *. intros w Hw.
      apply insert_In in Hw. destruct Hw as [->|Hw].
      * now apply before_total.
      * now apply Hz.
Qed.

Lemma sort_sorted (l : list A) :
  StronglySorted (fun a b => before a b = true) (sort before l).
Proof.
  induction l as [|x l IH]; simpl; [constructor | now apply insert_sorted].
Qed.

Lemma sort_head_first (l : list A) (x : A) (rest : list A) :
  sort before l = x :: rest ->
  forall y, In y l -> before x y = true.
Proof.
  intros H y Hy. pose proof (sort_sorted l) as Hs. rewrite H in Hs.
  apply (sort_In y l) in Hy. rewrite H in Hy.
  inversion Hs as [|? ? _ Hall]; subst.
  destruct Hy as [<-|Hy].
  - destruct (before x x) eqn:E; [reflexivity|].
    pose proof (before_total x x E) as E'. congruence.
  - rewrite Forall_forall in Hall. now apply Hall.
Qed.

End Ordered.

End SortFacts.

Lemma sort_by_key_head_least {A : Type} (key : A -> Q) (l : list A)
    (x : A) (rest : list A) :
  sort_by_key key l = x :: rest -> forall y, In y l -> key x <= key y.
Proof.
  intros H y Hy. apply Qle_bool_iff.
  apply (sort_head_first (fun a b => Qle_bool (key a) (key b))) with l rest;
    try assumption.
  - intros a b Hab. apply Qle_bool_false_iff in Hab.
    apply Qle_bool_iff. lra.
  - intros a b c Hab Hbc. apply Qle_bool_iff in Hab, Hbc.
    apply Qle_bool_iff. lra.
Qed.

Lemma sort_by_score_stable (s : Q) (l : list ScoredFertilizer) :
  with_score s (sort_by_score l) = with_score s l.
Proof.
  unfold with_score, sort_by_score, sort_by_key_reverse.
  apply filter_sort_tied. intros x y Hx Hy.
  apply Qeq_bool_iff in Hx, Hy. apply Qle_bool_iff. lra.
Qed.

Lemma sort_by_score_In (x : ScoredFertilizer) (l : list ScoredFertilizer) :
  In x (sort_by_score l) <-> In x l.
Proof. apply sort_In. Qed.

(** ** Subsequences *)

Lemma subseq_refl {A : Type} (l : list A) : subseq l l.
Proof. induction l; constructor; assumption. Qed.

Lemma subseq_nil_l {A : Type} (l : list A) : subseq [] l.
Proof. induction l; constructor; assumption. Qed.

Lemma subseq_trans {A : Type} (l1 l2 l3 : list A) :
  subseq l1 l2 -> subseq l2 l3 -> subseq l1 l3.
Proof.
  intros H12 H23. revert l1 H12.
  induction H23 as [|x l2 l3 H IH|x l2 l3 H IH]; intros l1 H12.
  - exact H12.
  - inversion H12; subst; constructor; now apply IH.
  - constructor. now apply IH.
Qed.

Lemma subseq_filter {A : Type} (p : A -> bool) (l : list A) :
  subseq (filter p l) l.
Proof.
  induction l as [|x l IH]; simpl; [constructor|].
  destruct (p x); constructor; assumption.
Qed.

Lemma subseq_filter_mono {A : Type} (p : A -> bool) (l1 l2 : list A) :
  subseq l1 l2 -> subseq (filter p l1) (filter p l2).
Proof.
  induction 1 as [|x l1 l2 H IH|x l1 l2 H IH]; simpl.
  - constructor.
  - destruct (p x); [constructor|]; assumption.
  - destruct (p x); [constructor|]; assumption.
Qed.

Lemma subseq_firstn {A : Type} (n : nat) (l : list A) : subseq (firstn n l) l.
Proof.
  revert n. induction l as [|x l IH]; intros [|n]; simpl;
    try constructor; try apply IH. apply subseq_nil_l.
Qed.

(** ** The candidate loop *)

Lemma score_fertilizer_raise_inv (c : Crop) (f : Fertilizer)
    (bpk : option Q) (e : exn) :
  score_fertilizer c f bpk = Raise e -> e = ZeroDivisionError.
Proof.
  intros H. destruct (Qeq_dec (crop_total c) 0) as [Hz|Hnz].
  - rewrite (score_fertilizer_raises c f bpk Hz) in H. congruence.
  - destruct (score_fertilizer_returns c f bpk Hnz) as [s Hs]. congruence.
Qed.

Lemma derive_budget_per_kg_returns (budget : option Q) (farm : Q) :
  exists bpk, derive_budget_per_kg budget farm = Ok bpk.
Proof.
  unfold derive_budget_per_kg. destruct budget as [b|]; [|now eexists].
  destruct (truthy b); simpl; [|now eexists].
  destruct (truthy farm) eqn:Ef; [|now eexists].
  apply truthy_iff in Ef.
  assert (H : ~ 50 * farm == 0) by lra.
  rewrite (py_div_ok _ _ H). now eexists.
Qed.

Lemma score_all_entries (c : Crop) (farm : Q) (bpk : option Q)
    (ferts : list Fertilizer) :
  forall scored, score_all c farm bpk ferts = Ok scored ->
                 Forall2 (entry_of farm) ferts scored.
Proof.
  induction ferts as [|f ferts IH]; intros scored H; simpl in H.
  - inversion H. constructor.
  - destruct (score_fertilizer c f bpk) as [s|e]; [|discriminate].
    cbn [bind] in H.
    destruct (py_div _ farm) as [q|e]; [|discriminate]. cbn [bind] in H.
    destruct (score_all c farm bpk ferts) as [tl|e]; [|discriminate].
    cbn [bind] in H. inversion H; subst. constructor.
    + repeat split.
    + now apply IH.
Qed.

Lemma score_all_rate (c : Crop) (farm : Q) (bpk : option Q)
    (ferts : list Fertilizer) (scored : list ScoredFertilizer) :
  score_all c farm bpk ferts = Ok scored ->
  forall x, In x scored ->
    application_rate_kg x
    = get_fertilizer_rate (product_name (fertilizer x)) farm.
Proof.
  intros H. apply score_all_entries in H.
  induction H as [|f x ferts scored (Hf & Hr & _) _ IH]; intros y Hy.
  - destruct Hy.
  - destruct Hy as [<-|Hy]; [now rewrite Hf | now apply IH].
Qed.

Lemma score_all_returns (c : Crop) (farm : Q) (bpk : option Q)
    (ferts : list Fertilizer) :
  ~ crop_total c == 0 -> ~ farm == 0 ->
  exists scored, score_all c farm bpk ferts = Ok scored.
Proof.
  intros Hc Hf. induction ferts as [|f ferts [tl IH]]; simpl.
  - now eexists.
  - destruct (score_fertilizer_returns c f bpk Hc) as [s ->]. cbn [bind].
    rewrite (py_div_ok _ _ Hf). cbn [bind]. rewrite IH. cbn [bind].
    now eexists.
Qed.

Lemma score_all_zero_farm (c : Crop) (farm : Q) (bpk : option Q)
    (ferts : list Fertilizer) :
  farm == 0 -> ferts <> [] ->
  score_all c farm bpk ferts = Raise ZeroDivisionError.
Proof.
  intros Hf Hne. destruct ferts as [|f ferts]; [congruence|]. simpl.
  destruct (score_fertilizer c f bpk) as [s|e] eqn:E; cbn [bind].
  - now rewrite (py_div_raise _ _ Hf).
  - now rewrite (score_fertilizer_raise_inv _ _ _ _ E).
Qed.

Lemma score_all_any_ceiling (c : Crop) (farm : Q) (bpk1 bpk2 : option Q)
    (ferts : list Fertilizer) :
  forall l1, score_all c farm bpk1 ferts = Ok l1 ->
  exists l2, score_all c farm bpk2 ferts = Ok l2
             /\ map total_cost l1 = map total_cost l2.
Proof.
  induction ferts as [|f ferts IH]; intros l1 H; simpl in H |- *.
  - inversion H. now exists [].
  - destruct (score_fertilizer c f bpk1) as [s|e] eqn:E; [|discriminate].
    cbn [bind] in H.
    destruct (score_fertilizer_returns c f bpk2
                (score_fertilizer_ok_total _ _ _ _ E)) as [s2 ->].
    cbn [bind].
    destruct (py_div _ farm) as [q|e]; [|discriminate]. cbn [bind] in H |- *.
    destruct (score_all c farm bpk1 ferts) as [tl|e]; [|discriminate].
    cbn [bind] in H. inversion H; subst.
    destruct (IH tl eq_refl) as (tl2 & -> & Hmap). cbn [bind].
    eexists. split; [reflexivity|]. simpl. now rewrite Hmap.
Qed.

(** ** Ranking and selection *)

Lemma filter_affordable_In (budget : option Q)
    (l : list ScoredFertilizer) (x : ScoredFertilizer) :
  In x (filter_affordable budget l) -> In x l.
Proof.
  unfold filter_affordable. destruct budget as [b|]; [|tauto].
  destruct (truthy b); [|tauto]. intros H. now apply filter_In in H.
Qed.

Lemma filter_affordable_subseq (budget : option Q)
    (l : list ScoredFertilizer) :
  subseq (filter_affordable budget l) l.
Proof.
  unfold filter_affordable. destruct budget as [b|]; [|apply subseq_refl].
  destruct (truthy b); [apply subseq_filter | apply subseq_refl].
Qed.

Lemma filter_affordable_falsy (budget : option Q)
    (l : list ScoredFertilizer) :
  truthy_opt budget = false -> filter_affordable budget l = l.
Proof.
  unfold filter_affordable. destruct budget as [b|]; [|reflexivity].
  simpl. now intros ->.
Qed.

Lemma select_fallback (budget : option Q) (scored : list ScoredFertilizer)
    (top : ScoredFertilizer) (alts : list ScoredFertilizer) :
  filter_affordable budget (sort_by_score scored) = [] ->
  select budget scored = Ok (top, alts) ->
  exists rest, sort_by_key total_cost (sort_by_score scored) = top :: rest.
Proof.
  intros Hnone H. unfold select in H. rewrite Hnone in H.
  unfold cheapest_fallback, choose, slice in H.
  destruct (sort_by_key total_cost (sort_by_score scored)) as [|x rest];
    simpl in H; [discriminate|].
  inversion H; subst. now exists rest.
Qed.

Lemma select_ranked (budget : option Q) (scored : list ScoredFertilizer)
    (top : ScoredFertilizer) (alts : list ScoredFertilizer) :
  truthy_opt budget = false
  \/ (1 < List.length (filter_affordable budget (sort_by_score scored)))%nat ->
  select budget scored = Ok (top, alts) ->
  top :: alts = firstn 4 (filter_affordable budget (sort_by_score scored)).
Proof.
  intros Hcase H. unfold select in H.
  destruct (filter_affordable budget (sort_by_score scored))
    as [|x aff] eqn:Eaff.
  - destruct Hcase as [Hfalsy|Hlen]; [|simpl in Hlen; lia].
    rewrite (filter_affordable_falsy _ _ Hfalsy) in Eaff.
    unfold sort_by_score, sort_by_key_reverse in Eaff.
    apply sort_nil_inv in Eaff. subst scored. discriminate.
  - unfold cheapest_fallback, choose, slice in H.
    destruct aff as [|y aff]; simpl in H; inversion H; subst.
    + destruct Hcase as [Hfalsy|Hlen]; [|simpl in Hlen; lia].
      rewrite (filter_affordable_falsy _ _ Hfalsy) in Eaff.
      rewrite Eaff. reflexivity.
    + reflexivity.
Qed.

Lemma select_top_In (budget : option Q) (scored : list ScoredFertilizer)
    (top : ScoredFertilizer) (alts : list ScoredFertilizer) :
  select budget scored = Ok (top, alts) -> In top scored.
Proof.
  intros H.
  destruct (filter_affordable budget (sort_by_score scored))
    as [|x aff] eqn:Eaff.
  - destruct (select_fallback _ _ _ _ Eaff H) as [rest Hrest].
    apply (sort_In (fun a b => Qle_bool (score b) (score a))).
    apply (sort_In (fun a b => Qle_bool (total_cost a) (total_cost b))).
    unfold sort_by_key, sort_by_score, sort_by_key_reverse in Hrest.
    rewrite Hrest. now left.
  - unfold select in H. rewrite Eaff in H.
    unfold cheapest_fallback, choose in H. inversion H; subst.
    apply (sort_In (fun a b => Qle_bool (score b) (score a))).
    apply (filter_affordable_In budget). fold (sort_by_key_reverse score scored).
    fold (sort_by_score scored). rewrite Eaff. now left.
Qed.

Lemma select_empty (budget : option Q) : select budget [] = Raise IndexError.
Proof.
  unfold select. simpl.
  assert (H : filter_affordable budget [] = []).
  { unfold filter_affordable. destruct budget as [b|]; [|reflexivity].
    now destruct (truthy b). }
  rewrite H. reflexivity.
Qed.

Lemma select_returns (budget : option Q) (scored : list ScoredFertilizer) :
  scored <> [] -> exists top alts, select budget scored = Ok (top, alts).
Proof.
  intros Hne. unfold select.
  destruct (filter_affordable budget (sort_by_score scored)) as [|x aff].
  - unfold cheapest_fallback.
    destruct (sort_by_key total_cost (sort_by_score scored))
      as [|y rest] eqn:E.
    + apply sort_nil_inv in E. apply sort_nil_inv in E. congruence.
    + simpl. now eexists; eexists.
  - simpl. now eexists; eexists.
Qed.

Lemma get_recommendation_inv (db : FertilizerDatabase) (cn st : string)
    (farm : Q) (budget : option Q) (r : Recommendation) :
  get_recommendation db cn st farm budget = Ok (RecommendationDict r) ->
  exists c s bpk scored top alts,
    get_crop_by_name db cn = Some c
    /\ get_soil_by_type db st = Some s
    /\ derive_budget_per_kg budget farm = Ok bpk
    /\ score_all c farm bpk (get_all_fertilizers db) = Ok scored
    /\ select budget scored = Ok (top, alts)
    /\ farm_size_acres r = farm
    /\ primary_recommendation r = primary_of top
    /\ alternatives r = map alternative_of alts.
Proof.
  unfold get_recommendation. intros H.
  destruct (get_crop_by_name db cn) as [c|]; [|discriminate].
  destruct (get_soil_by_type db st) as [s|]; [|discriminate].
  destruct (derive_budget_per_kg budget farm) as [bpk|e]; [|discriminate].
  cbn [bind] in H.
  destruct (score_all c farm bpk (get_all_fertilizers db)) as [scored|e]
    eqn:Escored; [|discriminate].
  cbn [bind] in H.
  destruct (select budget scored) as [[top alts]|e] eqn:Eselect;
    [|discriminate].
  cbn [bind] in H. inversion H; subst.
  exists c, s, bpk, scored, top, alts. repeat split; assumption.
Qed.

(** ** The engine as a whole *)

Lemma get_all_fertilizers_nil (db : FertilizerDatabase) :
  get_all_fertilizers db = [] <-> fertilizers db = [].
Proof.
  unfold get_all_fertilizers, sort_by_key. split.
  - apply sort_nil_inv.
  - now intros ->.
Qed.

(** The engine returns a recommendation whenever the crop and the soil are
    found, the crop asks for something, the farm size is not zero (it may
    be negative) and the catalog is not empty. *)
Lemma get_recommendation_returns (db : FertilizerDatabase) (cn st : string)
    (farm : Q) (budget : option Q) (c : Crop) (s : Soil) :
  get_crop_by_name db cn = Some c ->
  get_soil_by_type db st = Some s ->
  ~ crop_total c == 0 -> ~ farm == 0 -> fertilizers db <> [] ->
  exists r, get_recommendation db cn st farm budget
            = Ok (RecommendationDict r).
Proof.
  intros Hc Hs Htot Hfarm Hne. unfold get_recommendation.
  rewrite Hc, Hs.
  destruct (derive_budget_per_kg_returns budget farm) as [bpk ->].
  cbn [bind].
  destruct (score_all_returns c farm bpk (get_all_fertilizers db) Htot Hfarm)
    as [scored Hscored].
  rewrite Hscored. cbn [bind].
  assert (Hscored_ne : scored <> []).
  { intros ->. apply score_all_entries in Hscored. inversion Hscored as [E|].
    symmetry in E. apply get_all_fertilizers_nil in E. contradiction. }
  destruct (select_returns budget scored Hscored_ne) as (top & alts & ->).
  cbn [bind]. now eexists.
Qed.

Lemma get_recommendation_zero_farm (db : FertilizerDatabase)
    (cn st : string) (farm : Q) (budget : option Q) (c : Crop) (s : Soil) :
  get_crop_by_name db cn = Some c ->
  get_soil_by_type db st = Some s ->
  fertilizers db <> [] -> farm == 0 ->
  get_recommendation db cn st farm budget = Raise ZeroDivisionError.
Proof.
  intros Hc Hs Hne Hfarm. unfold get_recommendation. rewrite Hc, Hs.
  destruct (derive_budget_per_kg_returns budget farm) as [bpk ->].
  cbn [bind]. rewrite score_all_zero_farm; [reflexivity | exact Hfarm |].
  intros E. apply get_all_fertilizers_nil in E. contradiction.
Qed.

(** C5 (violated by the code): on the sample catalog a request for zero
    acres of maize on loam raises [ZeroDivisionError], whatever the budget:
    the cost per acre divides by the farm size. *)
Theorem get_recommendation_zero_acres_raises (budget : option Q) :
  get_recommendation Sample.sample_db "Maize" "Loam" 0 budget
  = Raise ZeroDivisionError.
Proof.
  apply (get_recommendation_zero_farm Sample.sample_db "Maize" "Loam" 0
           budget Sample.maize Sample.loam);
    try reflexivity.
  discriminate.
Qed.

(** C6: when the crop or the soil is not in the catalog the engine returns
    the error dict, which carries the message and nothing else, whatever the
    farm size, the budget and the fertilizers are; the crop is reported
    first; and the error dict is returned in no other case. *)
Theorem get_recommendation_not_found (db : FertilizerDatabase)
    (cn st : string) (farm : Q) (budget : option Q) :
  (get_crop_by_name db cn = None ->
   get_recommendation db cn st farm budget
   = Ok (ErrorDict ("Crop " ++ cn ++ " not found")%string))
  /\ (forall c, get_crop_by_name db cn = Some c ->
                get_soil_by_type db st = None ->
      get_recommendation db cn st farm budget
      = Ok (ErrorDict ("Soil " ++ st ++ " not found")%string))
  /\ (forall msg, get_recommendation db cn st farm budget
                  = Ok (ErrorDict msg) ->
      get_crop_by_name db cn = None \/ get_soil_by_type db st = None).
Proof.
  unfold get_recommendation. repeat split.
  - now intros ->.
  - now intros c -> ->.
  - intros msg H.
    destruct (get_crop_by_name db cn) as [c|]; [|now left].
    destruct (get_soil_by_type db st) as [s|]; [|now right].
    exfalso.
    destruct (derive_budget_per_kg budget farm) as [bpk|e]; [|discriminate].
    cbn [bind] in H.
    destruct (score_all c farm bpk (get_all_fertilizers db)) as [scored|e];
      [|discriminate].
    cbn [bind] in H.
    destruct (select budget scored) as [[top alts]|e]; discriminate.
Qed.

Lemma get_recommendation_not_found_witness :
  get_recommendation Sample.sample_db "Rice" "Loam" 2 (Some 10000)
  = Ok (ErrorDict "Crop Rice not found").
Proof.
  apply (proj1 (get_recommendation_not_found Sample.sample_db "Rice" "Loam"
                  2 (Some 10000))).
  reflexivity.
Defined.

(** C10: with the crop and the soil found and no fertilizer in the catalog
    the engine raises [IndexError] at [affordable[0]]; so a recommendation
    is returned only for a catalog of at least one fertilizer. *)
Theorem get_recommendation_empty_catalog (db : FertilizerDatabase)
    (cn st : string) (farm : Q) (budget : option Q) :
  fertilizers db = [] ->
  (forall c s, get_crop_by_name db cn = Some c ->
               get_soil_by_type db st = Some s ->
     get_recommendation db cn st farm budget = Raise IndexError)
  /\ (forall r, get_recommendation db cn st farm budget
                <> Ok (RecommendationDict r)).
Proof.
  intros Hempty. apply get_all_fertilizers_nil in Hempty.
  assert (Hraise : forall c s, get_crop_by_name db cn = Some c ->
                               get_soil_by_type db st = Some s ->
            get_recommendation db cn st farm budget = Raise IndexError).
  { intros c s Hc Hs. unfold get_recommendation. rewrite Hc, Hs, Hempty.
    destruct (derive_budget_per_kg_returns budget farm) as [bpk ->].
    cbn [bind score_all]. now rewrite select_empty. }
  split; [exact Hraise|].
  intros r H.
  destruct (get_recommendation_inv _ _ _ _ _ _ H)
    as (c & s & _ & _ & _ & _ & Hc & Hs & _).
  rewrite (Hraise c s Hc Hs) in H. discriminate.
Qed.

Lemma get_recommendation_empty_catalog_witness :
  get_recommendation Sample.empty_catalog_db "Maize" "Loam" 2 (Some 10000)
  = Raise IndexError.
Proof.
  apply (proj1 (get_recommendation_empty_catalog Sample.empty_catalog_db
                  "Maize" "Loam" 2 (Some 10000) eq_refl)
           Sample.maize Sample.loam);
    reflexivity.
Defined.

(** C9: the rate resolver, given the fertilizer name of the primary
    recommendation and the farm size of the request, returns the primary's
    [quantity_kg]. *)
Theorem primary_quantity_round_trip (db : FertilizerDatabase)
    (cn st : string) (farm : Q) (budget : option Q) (r : Recommendation) :
  get_recommendation db cn st farm budget = Ok (RecommendationDict r) ->
  get_fertilizer_rate (fertilizer_name (primary_recommendation r)) farm
  = quantity_kg (primary_recommendation r).
Proof.
  intros H.
  destruct (get_recommendation_inv _ _ _ _ _ _ H)
    as (c & s & bpk & scored & top & alts
        & _ & _ & _ & Hscored & Hselect & _ & -> & _).
  simpl. symmetry.
  apply (score_all_rate _ _ _ _ _ Hscored).
  exact (select_top_In _ _ _ _ Hselect).
Qed.

Lemma primary_quantity_round_trip_witness :
  exists r,
    get_recommendation Sample.sample_db "Maize" "Loam" 2 (Some 10000)
    = Ok (RecommendationDict r)
    /\ get_fertilizer_rate (fertilizer_name (primary_recommendation r)) 2
       = quantity_kg (primary_recommendation r).
Proof.
  eexists. split; [vm_compute; reflexivity|].
  apply (primary_quantity_round_trip Sample.sample_db "Maize" "Loam" 2
           (Some 10000)).
  vm_compute. reflexivity.
Defined.

(** ** The budget filter and the fallback *)

Lemma filter_none {A : Type} (p : A -> bool) (l : list A) :
  (forall x, In x l -> p x = false) -> filter p l = [].
Proof.
  induction l as [|x l IH]; intros H; simpl; [reflexivity|].
  rewrite (H x (or_introl eq_refl)). apply IH.
  intros y Hy. apply H. now right.
Qed.

(** C3: when a non-zero budget is given and the total cost of every
    candidate exceeds it, the primary recommendation is one of the
    candidates and no candidate has a smaller total cost. *)
Theorem fallback_primary_is_cheapest (db : FertilizerDatabase)
    (cn st : string) (farm b : Q) (r : Recommendation) (c : Crop)
    (bpk : option Q) (scored : list ScoredFertilizer) :
  ~ b == 0 ->
  get_crop_by_name db cn = Some c ->
  derive_budget_per_kg (Some b) farm = Ok bpk ->
  score_all c farm bpk (get_all_fertilizers db) = Ok scored ->
  (forall x, In x scored -> ~ total_cost x <= b) ->
  get_recommendation db cn st farm (Some b) = Ok (RecommendationDict r) ->
  (exists top, In top scored /\ primary_recommendation r = primary_of top)
  /\ (forall x, In x scored ->
        primary_total_cost (primary_recommendation r) <= total_cost x).
Proof.
  intros Hb Hc Hbpk Hscored Hnone H.
  destruct (get_recommendation_inv _ _ _ _ _ _ H)
    as (c' & s & bpk' & scored' & top & alts
        & Hc' & _ & Hbpk' & Hscored' & Hselect & _ & Hprim & _).
  assert (c' = c) by congruence. subst c'.
  assert (bpk' = bpk) by congruence. subst bpk'.
  assert (scored' = scored) by congruence. subst scored'.
  split; [exists top; split; [exact (select_top_In _ _ _ _ Hselect)|exact Hprim]|].
  assert (Hfilter : filter_affordable (Some b) (sort_by_score scored) = []).
  { unfold filter_affordable. rewrite (proj2 (truthy_iff b) Hb).
    apply filter_none. intros x Hx.
    rewrite sort_by_score_In in Hx.
    apply not_true_iff_false. rewrite Qle_bool_iff. now apply Hnone. }
  destruct (select_fallback _ _ _ _ Hfilter Hselect) as [rest Hrest].
  intros x Hx. rewrite Hprim. simpl.
  apply (sort_by_key_head_least total_cost _ _ _ Hrest).
  now rewrite sort_by_score_In.
Qed.

Lemma fallback_primary_is_cheapest_witness :
  exists r scored,
    get_recommendation Sample.sample_db "Maize" "Loam" 2 (Some 100)
    = Ok (RecommendationDict r)
    /\ score_all Sample.maize 2 (Some (100 / (50 * 2)))
         (get_all_fertilizers Sample.sample_db) = Ok scored
    /\ List.length scored = 8%nat
    /\ (forall x, In x scored ->
          primary_total_cost (primary_recommendation r) <= total_cost x).
Proof.
  eexists. eexists.
  split; [vm_compute; reflexivity|].
  split; [vm_compute; reflexivity|].
  split; [reflexivity|].
  apply (fallback_primary_is_cheapest Sample.sample_db "Maize" "Loam" 2 100
           _ Sample.maize (Some (100 / (50 * 2))) _).
  - discriminate.
  - reflexivity.
  - reflexivity.
  - vm_compute. reflexivity.
  - intros x Hx Hle. apply Qle_bool_iff in Hle.
    repeat (destruct Hx as [<-|Hx]; [vm_compute in Hle; discriminate|]).
    destruct Hx.
  - vm_compute. reflexivity.
Defined.

Lemma filter_le_length_mono (b1 b2 : Q) (l1 l2 : list ScoredFertilizer) :
  b1 <= b2 -> map total_cost l1 = map total_cost l2 ->
  (List.length (filter (fun f => Qle_bool (total_cost f) b1) l1)
   <= List.length (filter (fun f => Qle_bool (total_cost f) b2) l2))%nat.
Proof.
  intros Hb. revert l2.
  induction l1 as [|x l1 IH]; intros [|y l2] Hmap; simpl in *;
    try discriminate; [lia|].
  injection Hmap as Hxy Hrest. specialize (IH l2 Hrest).
  destruct (Qle_bool (total_cost x) b1) eqn:E1.
  - apply Qle_bool_iff in E1.
    assert (E2 : Qle_bool (total_cost y) b2 = true).
    { apply Qle_bool_iff. rewrite <- Hxy. lra. }
    rewrite E2. simpl. lia.
  - destruct (Qle_bool (total_cost y) b2); simpl; lia.
Qed.

(** C8: for one crop, farm size and catalog, a larger budget never leaves
    fewer candidates after the affordability filter than a smaller, non-zero
    one; the candidate loop succeeds for the one exactly when it succeeds
    for the other. *)
Theorem affordable_count_monotone (c : Crop) (farm b1 b2 : Q)
    (ferts : list Fertilizer) (bpk1 : option Q)
    (l1 : list ScoredFertilizer) :
  ~ b1 == 0 -> b1 <= b2 ->
  derive_budget_per_kg (Some b1) farm = Ok bpk1 ->
  score_all c farm bpk1 ferts = Ok l1 ->
  exists bpk2 l2,
    derive_budget_per_kg (Some b2) farm = Ok bpk2
    /\ score_all c farm bpk2 ferts = Ok l2
    /\ (List.length (filter_affordable (Some b1) (sort_by_score l1))
        <= List.length (filter_affordable (Some b2) (sort_by_score l2)))%nat.
Proof.
  intros Hnz Hle Hbpk1 Hl1.
  destruct (derive_budget_per_kg_returns (Some b2) farm) as [bpk2 Hbpk2].
  destruct (score_all_any_ceiling c farm bpk1 bpk2 ferts l1 Hl1)
    as (l2 & Hl2 & Hmap).
  exists bpk2, l2. split; [exact Hbpk2 | split; [exact Hl2|]].
  unfold filter_affordable, sort_by_score, sort_by_key_reverse.
  rewrite (proj2 (truthy_iff b1) Hnz), filter_sort_length.
  destruct (truthy b2).
  - rewrite filter_sort_length. now apply filter_le_length_mono.
  - rewrite sort_length.
    assert (Hlen : List.length l1 = List.length l2).
    { rewrite <- (length_map total_cost l1), Hmap. apply length_map. }
    rewrite <- Hlen. apply filter_length_le.
Qed.

Lemma affordable_count_monotone_witness :
  exists bpk2 l1 l2,
    score_all Sample.maize 2 (Some (9000 / (50 * 2)))
      (get_all_fertilizers Sample.sample_db) = Ok l1
    /\ derive_budget_per_kg (Some 10000) 2 = Ok bpk2
    /\ score_all Sample.maize 2 bpk2 (get_all_fertilizers Sample.sample_db)
       = Ok l2
    /\ (List.length (filter_affordable (Some 9000%Q) (sort_by_score l1))
        <= List.length
             (filter_affordable (Some 10000%Q) (sort_by_score l2)))%nat.
Proof.
  assert (H1 : exists l1,
             score_all Sample.maize 2 (Some (9000 / (50 * 2)))
               (get_all_fertilizers Sample.sample_db) = Ok l1).
  { eexists. vm_compute. reflexivity. }
  destruct H1 as [l1 H1].
  destruct (affordable_count_monotone Sample.maize 2 9000 10000
              (get_all_fertilizers Sample.sample_db)
              (Some (9000 / (50 * 2))) l1)
    as (bpk2 & l2 & Hb & Hl & Hlen).
  - discriminate.
  - discriminate.
  - reflexivity.
  - exact H1.
  - exists bpk2, l1, l2. repeat split; assumption.
Defined.

(** ** Ties in the ranking *)

Lemma subseq_swap_false {A : Type} (a b : A) :
  a <> b -> ~ subseq [b; a] [a; b].
Proof.
  intros Hab H.
  inversion H as [|x l1 l2 H1|x l1 l2 H1]; subst; [congruence|].
  inversion H1 as [|y k1 k2 H2|y k1 k2 H2]; subst; inversion H2.
Qed.

(** C7 as the code has it: the score-descending ranking keeps candidates
    of equal score in the order of the candidate list, which is the catalog
    order; the primary recommendation followed by the alternatives keeps
    that order too when no budget is given (or the budget is zero) or when
    at least two candidates are affordable. *)
Theorem ranking_is_stable (scored : list ScoredFertilizer) :
  (forall s, with_score s (sort_by_score scored) = with_score s scored)
  /\ (forall budget top alts,
        select budget scored = Ok (top, alts) ->
        truthy_opt budget = false
        \/ (1 < List.length
                  (filter_affordable budget (sort_by_score scored)))%nat ->
        ties_keep_catalog_order scored (top :: alts)).
Proof.
  split; [intros s; apply sort_by_score_stable|].
  intros budget top alts Hselect Hcase s.
  rewrite (select_ranked _ _ _ _ Hcase Hselect).
  rewrite <- (sort_by_score_stable s scored).
  apply subseq_filter_mono.
  apply subseq_trans with (filter_affordable budget (sort_by_score scored)).
  - apply subseq_firstn.
  - apply filter_affordable_subseq.
Qed.

Lemma ranking_is_stable_witness :
  exists scored top alts,
    score_all Sample.maize 2 None (get_all_fertilizers Sample.sample_db)
    = Ok scored
    /\ select None scored = Ok (top, alts)
    /\ ties_keep_catalog_order scored (top :: alts).
Proof.
  eexists. eexists. eexists.
  split; [vm_compute; reflexivity|].
  split; [vm_compute; reflexivity|].
  match goal with |- ties_keep_catalog_order ?l _ =>
    apply (proj2 (ranking_is_stable l) None) end.
  - vm_compute. reflexivity.
  - left. reflexivity.
Defined.

(** C7 as stated fails: with the two products of [tie_db], a farm of one
    acre and a budget of 100 that neither product meets, both candidates
    score the same, the catalog lists the manure first, and the fallback
    makes the blend the primary recommendation and the manure its
    alternative. *)
Lemma ties_reordered_by_fallback :
  exists scored top alts r,
    score_all Sample.maize 1 (Some (100 / (50 * 1)))
      (get_all_fertilizers Sample.tie_db) = Ok scored
    /\ select (Some 100) scored = Ok (top, alts)
    /\ get_recommendation Sample.tie_db "Maize" "Loam" 1 (Some 100)
       = Ok (RecommendationDict r)
    /\ primary_recommendation r = primary_of top
    /\ alternatives r = map alternative_of alts
    /\ ~ ties_keep_catalog_order scored (top :: alts).
Proof.
  eexists. eexists. eexists. eexists.
  split; [vm_compute; reflexivity|].
  split; [vm_compute; reflexivity|].
  split; [vm_compute; reflexivity|].
  split; [reflexivity|].
  split; [reflexivity|].
  intros H. specialize (H (105 # 2)). vm_compute in H.
  revert H. apply subseq_swap_false. discriminate.
Qed.

(** * Further properties of the engine *)

(** ** Case and the rate resolver *)

Lemma upper_ascii_idem (c : ascii) : upper_ascii (upper_ascii c) = upper_ascii c.
Proof.
  destruct c as [[] [] [] [] [] [] [] []]; reflexivity.
Qed.

Lemma upper_lower_ascii (c : ascii) : upper_ascii (lower_ascii c) = upper_ascii c.
Proof.
  destruct c as [[] [] [] [] [] [] [] []]; reflexivity.
Qed.

Lemma lower_upper_ascii (c : ascii) : lower_ascii (upper_ascii c) = lower_ascii c.
Proof.
  destruct c as [[] [] [] [] [] [] [] []]; reflexivity.
Qed.

Lemma lower_ascii_idem (c : ascii) : lower_ascii (lower_ascii c) = lower_ascii c.
Proof.
  destruct c as [[] [] [] [] [] [] [] []]; reflexivity.
Qed.

Lemma map_string_compose (f g h : ascii -> ascii) (s : string) :
  (forall c, f (g c) = h c) ->
  map_string f (map_string g s) = map_string h s.
Proof.
  intros H. induction s as [|c s IH]; simpl; [reflexivity|].
  now rewrite H, IH.
Qed.

Lemma upper_idem (s : string) : upper (upper s) = upper s.
Proof. apply map_string_compose, upper_ascii_idem. Qed.

Lemma upper_lower (s : string) : upper (lower s) = upper s.
Proof. apply map_string_compose, upper_lower_ascii. Qed.

Lemma lower_upper (s : string) : lower (upper s) = lower s.
Proof. apply map_string_compose, lower_upper_ascii. Qed.

Lemma lower_idem (s : string) : lower (lower s) = lower s.
Proof. apply map_string_compose, lower_ascii_idem. Qed.

Lemma scan_rates_upper (table : list (string * Z)) (n1 n2 : string) (d : Z) :
  upper n1 = upper n2 -> scan_rates table n1 d = scan_rates table n2 d.
Proof.
  intros H. induction table as [|[k r] table IH]; simpl; [reflexivity|].
  now rewrite H, IH.
Qed.

(** The rate depends on the product name through its upper-case form only:
    writing the name in capitals or in small letters changes nothing. *)
Theorem get_fertilizer_rate_ignores_case (name : string) (farm : Q) :
  get_fertilizer_rate (upper name) farm = get_fertilizer_rate name farm
  /\ get_fertilizer_rate (lower name) farm = get_fertilizer_rate name farm.
Proof.
  unfold get_fertilizer_rate. split.
  - now rewrite (scan_rates_upper standard_rates (upper name) name 50
                   (upper_idem name)).
  - now rewrite (scan_rates_upper standard_rates (lower name) name 50
                   (upper_lower name)).
Qed.

Lemma scan_rates_range (table : list (string * Z)) (name : string) (d : Z) :
  scan_rates table name d = d
  \/ exists key, In (key, scan_rates table name d) table
                 /\ occurs_ignoring_case key name.
Proof.
  induction table as [|[k r] table IH]; simpl; [now left|].
  destruct (contains (upper k) (upper name)) eqn:E.
  - right. exists k. split; [now left | now apply contains_iff].
  - destruct IH as [IH|[key [Hin Hocc]]]; [now left|].
    right. exists key. split; [now right | exact Hocc].
Qed.

(** The resolver knows two rates only: it returns 50 or 2000 kg per acre
    times the farm size, and 2000 only for a name in which Manure or Compost
    occurs when case is ignored. *)
Theorem get_fertilizer_rate_two_rates (name : string) (farm : Q) :
  get_fertilizer_rate name farm = 50 * farm
  \/ (get_fertilizer_rate name farm = 2000 * farm
      /\ (occurs_ignoring_case "Manure" name
          \/ occurs_ignoring_case "Compost" name)).
Proof.
  unfold get_fertilizer_rate.
  generalize (scan_rates_range standard_rates name 50).
  generalize (scan_rates standard_rates name 50).
  intros r [->|[key [Hin Hocc]]]; [now left|].
  simpl in Hin.
  destruct Hin as [H|[H|[H|[H|[H|[H|[H|[]]]]]]]];
    inversion H as [[Hk Hr]]; subst key;
    solve [now left | right; split; [reflexivity | tauto]].
Qed.

(** ** More on the scorer *)

Lemma py_min_l (x y : Q) : x <= y -> py_min x y = x.
Proof.
  intros H. unfold py_min. destruct (Qlt_bool y x) eqn:E; [|reflexivity].
  apply Qlt_bool_iff in E. lra.
Qed.

Lemma py_min_mono (x x' y : Q) : x <= x' -> py_min x y <= py_min x' y.
Proof.
  intros H. unfold py_min.
  destruct (Qlt_bool y x) eqn:E, (Qlt_bool y x') eqn:E';
    try apply Qlt_bool_iff in E; try apply Qlt_bool_iff in E';
    try apply Qlt_bool_false_iff in E; try apply Qlt_bool_false_iff in E';
    lra.
Qed.

Lemma py_max_mono (x x' y : Q) : x <= x' -> py_max x y <= py_max x' y.
Proof.
  intros H. unfold py_max.
  destruct (Qlt_bool x y) eqn:E, (Qlt_bool x' y) eqn:E';
    try apply Qlt_bool_iff in E; try apply Qlt_bool_iff in E';
    try apply Qlt_bool_false_iff in E; try apply Qlt_bool_false_iff in E';
    lra.
Qed.

Lemma npk_term_skipped (a b c : Q) (f : Fertilizer) (s : Q) :
  nitrogen_content f + phosphorus_content f + potassium_content f <= 0 ->
  npk_term a b c f s = Ok s.
Proof.
  intros H. unfold npk_term.
  now rewrite (proj2 (Qlt_bool_false_iff _ _) H).
Qed.

(** A fertilizer whose three contents sum to zero or less is not rated on
    its nutrient ratio: with no budget ceiling it scores exactly 100 for
    every crop that the scorer accepts. *)
Theorem score_fertilizer_no_content (c : Crop) (f : Fertilizer) :
  nitrogen_content f + phosphorus_content f + potassium_content f <= 0 ->
  ~ crop_total c == 0 ->
  score_fertilizer c f None = Ok 100.
Proof.
  intros Hf Hc. unfold score_fertilizer. rewrite !(py_div_ok _ _ Hc).
  cbn [bind]. rewrite (npk_term_skipped _ _ _ _ _ Hf). reflexivity.
Qed.

Lemma score_fertilizer_no_content_witness :
  score_fertilizer Sample.maize
    (Sample.mk "Lime" 0 0 0 10 "Common" "Soil conditioner.") None
  = Ok 100.
Proof.
  apply score_fertilizer_no_content; [discriminate | discriminate].
Defined.




Lemma budget_term_price_mono (f1 f2 : Fertilizer) (bpk : option Q)
    (s s1 s2 : Q) :
  ceiling_ok bpk ->
  price_per_kg f1 <= price_per_kg f2 ->
  budget_term f1 bpk s = Ok s1 -> budget_term f2 bpk s = Ok s2 -> s2 <= s1.
Proof.
  intros Hb Hp H1 H2. unfold budget_term in *.
  destruct bpk as [b|]; simpl in Hb;
    [|inversion H1; inversion H2; subst; apply Qle_refl].
  assert (Hnz : ~ b == 0) by lra.
  rewrite (proj2 (truthy_iff b) Hnz) in *.
  rewrite !(py_div_ok _ _ Hnz) in *. cbn [bind] in *.
  assert (Hpen : forall p, b < p ->
            0 <= py_min ((p - b) / b * 40) 40).
  { intros p Hlt. apply py_min_nonneg; [|lra].
    assert (0 <= (p - b) / b) by (apply Qle_shift_div_l; lra). lra. }
  destruct (Qlt_bool b (price_per_kg f1)) eqn:E1,
           (Qlt_bool b (price_per_kg f2)) eqn:E2;
    try apply Qlt_bool_iff in E1; try apply Qlt_bool_iff in E2;
    try apply Qlt_bool_false_iff in E1; try apply Qlt_bool_false_iff in E2;
    inversion H1; inversion H2; subst.
  - assert (py_min ((price_per_kg f1 - b) / b * 40) 40
            <= py_min ((price_per_kg f2 - b) / b * 40) 40).
    { apply py_min_mono.
      assert ((price_per_kg f1 - b) / b <= (price_per_kg f2 - b) / b).
      { unfold Qdiv. apply Qmult_le_compat_r; [lra|].
        apply Qlt_le_weak, Qinv_lt_0_compat. lra. }
      lra. }
    lra.
  - lra.
  - specialize (Hpen _ E2). lra.
  - lra.
Qed.

(** Of two fertilizers with the same three contents the dearer never
    scores higher, for every crop and every ceiling that is absent or
    positive. *)
Theorem score_fertilizer_price_monotone (c : Crop) (f1 f2 : Fertilizer)
    (bpk : option Q) (s1 s2 : Q) :
  ceiling_ok bpk ->
  nitrogen_content f1 = nitrogen_content f2 ->
  phosphorus_content f1 = phosphorus_content f2 ->
  potassium_content f1 = potassium_content f2 ->
  price_per_kg f1 <= price_per_kg f2 ->
  score_fertilizer c f1 bpk = Ok s1 ->
  score_fertilizer c f2 bpk = Ok s2 ->
  s2 <= s1.
Proof.
  intros Hb Hn Hp Hk Hprice H1 H2.
  pose proof (score_fertilizer_ok_total _ _ _ _ H1) as Hc.
  unfold score_fertilizer in H1, H2.
  rewrite !(py_div_ok _ _ Hc) in H1, H2. cbn [bind] in H1, H2.
  unfold npk_term in H1, H2. rewrite <- Hn, <- Hp, <- Hk in H2.
  match type of H1 with
  | bind ?m _ = _ => destruct m as [s|e]; [|discriminate]
  end.
  cbn [bind] in H1, H2.
  destruct (budget_term f1 bpk s) as [t1|e] eqn:E1; [|discriminate].
  destruct (budget_term f2 bpk s) as [t2|e] eqn:E2; [|discriminate].
  cbn [bind] in H1, H2. inversion H1; inversion H2; subst.
  apply py_max_mono.
  exact (budget_term_price_mono f1 f2 bpk s t1 t2 Hb Hprice E1 E2).
Qed.

Lemma score_fertilizer_price_monotone_witness :
  exists s1 s2,
    score_fertilizer Sample.maize Sample.urea (Some 80) = Ok s1
    /\ score_fertilizer Sample.maize
         (Sample.mk "Urea premium" 46 0 0 95 "Rare" "Coated.") (Some 80)
       = Ok s2
    /\ s2 <= s1.
Proof.
  eexists. eexists.
  split; [vm_compute; reflexivity|].
  split; [vm_compute; reflexivity|].
  apply (score_fertilizer_price_monotone Sample.maize Sample.urea
           (Sample.mk "Urea premium" 46 0 0 95 "Rare" "Coated.") (Some 80));
    try reflexivity; try discriminate; vm_compute; reflexivity.
Defined.

(** A negative ceiling turns the budget term round: a zero-content
    fertilizer priced above it scores more than 100. *)
Theorem score_fertilizer_negative_ceiling (c : Crop) (f : Fertilizer)
    (b : Q) :
  b < 0 -> b < price_per_kg f ->
  nitrogen_content f + phosphorus_content f + potassium_content f <= 0 ->
  ~ crop_total c == 0 ->
  exists s, score_fertilizer c f (Some b) = Ok s /\ 100 < s.
Proof.
  intros Hb Hp Hf Hc. unfold score_fertilizer.
  rewrite !(py_div_ok _ _ Hc). cbn [bind].
  rewrite (npk_term_skipped _ _ _ _ _ Hf). cbn [bind].
  assert (Hnz : ~ b == 0) by lra.
  unfold budget_term. rewrite (proj2 (truthy_iff b) Hnz).
  rewrite (proj2 (Qlt_bool_iff _ _) Hp), (py_div_ok _ _ Hnz). cbn [bind].
  eexists. split; [reflexivity|].
  assert (Hq : (price_per_kg f - b) / b < 0).
  { assert (Hpos : 0 < (price_per_kg f - b) / - b)
      by (apply Qlt_shift_div_l; lra).
    setoid_replace ((price_per_kg f - b) / b)
      with (- ((price_per_kg f - b) / - b)) by (field; lra).
    lra. }
  rewrite py_min_l by lra. rewrite py_max_floor by lra. lra.
Qed.

Lemma score_fertilizer_negative_ceiling_witness :
  exists s,
    score_fertilizer Sample.maize
      (Sample.mk "Lime" 0 0 0 10 "Common" "Soil conditioner.") (Some (-1))
    = Ok s /\ 100 < s.
Proof.
  apply score_fertilizer_negative_ceiling; reflexivity || discriminate.
Defined.

(** ** More on the candidate loop *)

Lemma Qlt_bool_comp (x x' y y' : Q) :
  x == x' -> y == y' -> Qlt_bool x y = Qlt_bool x' y'.
Proof.
  intros Hx Hy. unfold Qlt_bool. now rewrite Hx, Hy.
Qed.

Lemma py_round_comp (x y : Q) (n : nat) : x == y -> py_round x n = py_round y n.
Proof.
  intros H. unfold py_round.
  set (m := inject_Z (10 ^ Z.of_nat n)).
  assert (Hm : x * m == y * m) by (apply Qmult_comp; [exact H | reflexivity]).
  assert (Hf : Qfloor (x * m) = Qfloor (y * m)) by (apply Qfloor_comp, Hm).
  rewrite <- Hf.
  assert (Hr : x * m - inject_Z (Qfloor (x * m))
               == y * m - inject_Z (Qfloor (x * m))) by lra.
  rewrite (Qlt_bool_comp _ _ _ _ Hr (Qeq_refl (1 # 2))).
  rewrite (Qlt_bool_comp _ _ _ _ (Qeq_refl (1 # 2)) Hr).
  reflexivity.
Qed.

Lemma py_div_inv (x y q : Q) : py_div x y = Ok q -> ~ y == 0 /\ q = x / y.
Proof.
  unfold py_div. destruct (Qeq_bool y 0) eqn:E; [discriminate|].
  intros H. inversion H. split; [|reflexivity].
  intros Hy. apply Qeq_bool_iff in Hy. congruence.
Qed.

Lemma score_all_cons_inv (c : Crop) (farm : Q) (bpk : option Q)
    (f : Fertilizer) (ferts : list Fertilizer) (l : list ScoredFertilizer) :
  score_all c farm bpk (f :: ferts) = Ok l ->
  exists s tl,
    score_fertilizer c f bpk = Ok s
    /\ ~ farm == 0
    /\ score_all c farm bpk ferts = Ok tl
    /\ l = {| fertilizer := f;
              score := s;
              application_rate_kg := get_fertilizer_rate (product_name f) farm;
              total_cost :=
                py_round (get_fertilizer_rate (product_name f) farm
                          * price_per_kg f) 2;
              cost_per_acre :=
                py_round (get_fertilizer_rate (product_name f) farm
                          * price_per_kg f / farm) 2 |} :: tl.
Proof.
  simpl. intros H.
  destruct (score_fertilizer c f bpk) as [s|e]; [|discriminate].
  cbn [bind] in H.
  destruct (py_div _ farm) as [q|e] eqn:Eq; [|discriminate].
  cbn [bind] in H.
  destruct (score_all c farm bpk ferts) as [tl|e]; [|discriminate].
  cbn [bind] in H. inversion H; subst.
  apply py_div_inv in Eq. destruct Eq as [Hfarm ->].
  exists s, tl. repeat split; assumption.
Qed.

Lemma score_all_scores (c : Crop) (farm : Q) (bpk : option Q)
    (ferts : list Fertilizer) (scored : list ScoredFertilizer) :
  score_all c farm bpk ferts = Ok scored ->
  Forall (fun x => score_fertilizer c (fertilizer x) bpk = Ok (score x))
    scored.
Proof.
  revert scored. induction ferts as [|f ferts IH]; intros scored H.
  - inversion H. constructor.
  - destruct (score_all_cons_inv _ _ _ _ _ _ H)
      as (s & tl & Hs & _ & Htl & ->).
    constructor; [exact Hs | exact (IH tl Htl)].
Qed.

(** The candidate list follows the catalog: one candidate per fertilizer,
    in the same order, carrying the score the scorer gives for it, the
    quantity the rate resolver gives, and quantity times price rounded to
    two decimals as its total cost. *)
Theorem score_all_follows_catalog (c : Crop) (farm : Q) (bpk : option Q)
    (ferts : list Fertilizer) (scored : list ScoredFertilizer) :
  score_all c farm bpk ferts = Ok scored ->
  map fertilizer scored = ferts
  /\ Forall (fun x =>
       score_fertilizer c (fertilizer x) bpk = Ok (score x)
       /\ application_rate_kg x
          = get_fertilizer_rate (product_name (fertilizer x)) farm
       /\ total_cost x
          = py_round (application_rate_kg x * price_per_kg (fertilizer x)) 2)
     scored.
Proof.
  revert scored. induction ferts as [|f ferts IH]; intros scored H.
  - inversion H. split; constructor.
  - destruct (score_all_cons_inv _ _ _ _ _ _ H)
      as (s & tl & Hs & _ & Htl & ->).
    destruct (IH tl Htl) as [Hmap Hall].
    split; [simpl; now rewrite Hmap|].
    constructor; [|exact Hall]. simpl. repeat split. exact Hs.
Qed.

Lemma score_all_follows_catalog_witness :
  exists scored,
    score_all Sample.maize 2 None (get_all_fertilizers Sample.sample_db)
    = Ok scored
    /\ map fertilizer scored = get_all_fertilizers Sample.sample_db.
Proof.
  assert (H : exists scored,
             score_all Sample.maize 2 None
               (get_all_fertilizers Sample.sample_db) = Ok scored).
  { eexists. vm_compute. reflexivity. }
  destruct H as [scored H]. exists scored. split; [exact H|].
  exact (proj1 (score_all_follows_catalog _ _ _ _ _ H)).
Defined.



Lemma score_fertilizer_bounds (c : Crop) (f : Fertilizer) (bpk : option Q)
    (s : Q) :
  ceiling_ok bpk -> score_fertilizer c f bpk = Ok s -> 0 <= s /\ s <= 100.
Proof.
  intros Hb Hs. pose proof (score_fertilizer_ok_total _ _ _ _ Hs) as Hc.
  unfold score_fertilizer in Hs. rewrite !(py_div_ok _ _ Hc) in Hs.
  cbn [bind] in Hs.
  match type of Hs with context [npk_term ?a ?b ?c f 100] =>
    destruct (npk_term_spec a b c f 100) as (s1 & p1 & E1 & Hs1 & Hp1 & Hp1')
  end.
  rewrite E1 in Hs. cbn [bind] in Hs.
  destruct (budget_term_spec f bpk s1 Hb)
    as (s2 & p2 & E2 & Hs2 & Hp2 & Hp2' & _).
  rewrite E2 in Hs. cbn [bind] in Hs. inversion Hs as [Hmax]. clear Hs.
  assert (H0 : 0 <= s2) by lra.
  rewrite (py_max_floor _ H0). split; lra.
Qed.

Lemma derive_budget_per_kg_positive (budget : option Q) (farm : Q)
    (bpk : option Q) :
  match budget with Some b => 0 < b | None => True end ->
  0 < farm ->
  derive_budget_per_kg budget farm = Ok bpk ->
  ceiling_ok bpk.
Proof.
  intros Hb Hfarm H. unfold derive_budget_per_kg in H.
  destruct budget as [b|]; [|inversion H; exact I].
  assert (Hbnz : ~ b == 0) by lra.
  assert (Hfnz : ~ farm == 0) by lra.
  assert (Hk : ~ 50 * farm == 0) by lra.
  rewrite (proj2 (truthy_iff b) Hbnz), (proj2 (truthy_iff farm) Hfnz) in H.
  simpl andb in H. cbv iota in H. rewrite (py_div_ok _ _ Hk) in H.
  cbn [bind] in H. inversion H. simpl.
  apply Qlt_shift_div_l; lra.
Qed.

(** In a request with a positive farm size and a budget that is absent or
    positive, every candidate of the loop has a score between 0 and 100. *)
Theorem candidate_scores_in_range (c : Crop) (farm : Q) (budget : option Q)
    (bpk : option Q) (ferts : list Fertilizer)
    (scored : list ScoredFertilizer) :
  match budget with Some b => 0 < b | None => True end ->
  0 < farm ->
  derive_budget_per_kg budget farm = Ok bpk ->
  score_all c farm bpk ferts = Ok scored ->
  Forall (fun x => 0 <= score x /\ score x <= 100) scored.
Proof.
  intros Hb Hfarm Hbpk H.
  pose proof (derive_budget_per_kg_positive _ _ _ Hb Hfarm Hbpk) as Hceil.
  apply Forall_impl with (2 := score_all_scores _ _ _ _ _ H). intros x Hs.
  exact (score_fertilizer_bounds c (fertilizer x) bpk (score x) Hceil Hs).
Qed.

Lemma candidate_scores_in_range_witness :
  exists scored,
    score_all Sample.maize 2 (Some (10000 / (50 * 2)))
      (get_all_fertilizers Sample.sample_db) = Ok scored
    /\ Forall (fun x => 0 <= score x /\ score x <= 100) scored.
Proof.
  assert (H : exists scored,
             score_all Sample.maize 2 (Some (10000 / (50 * 2)))
               (get_all_fertilizers Sample.sample_db) = Ok scored).
  { eexists. vm_compute. reflexivity. }
  destruct H as [scored H]. exists scored. split; [exact H|].
  apply (candidate_scores_in_range Sample.maize 2 (Some 10000)
           (Some (10000 / (50 * 2))) (get_all_fertilizers Sample.sample_db));
    (reflexivity || exact H).
Defined.

(** ** The outcomes of a request *)

Lemma score_all_zero_crop (c : Crop) (farm : Q) (bpk : option Q)
    (ferts : list Fertilizer) :
  crop_total c == 0 -> ferts <> [] ->
  score_all c farm bpk ferts = Raise ZeroDivisionError.
Proof.
  intros Hc Hne. destruct ferts as [|f ferts]; [congruence|]. simpl.
  now rewrite (score_fertilizer_raises c f bpk Hc).
Qed.

Lemma get_recommendation_zero_crop (db : FertilizerDatabase)
    (cn st : string) (farm : Q) (budget : option Q) (c : Crop) (s : Soil) :
  get_crop_by_name db cn = Some c ->
  get_soil_by_type db st = Some s ->
  fertilizers db <> [] -> crop_total c == 0 ->
  get_recommendation db cn st farm budget = Raise ZeroDivisionError.
Proof.
  intros Hc Hs Hne Hz. unfold get_recommendation. rewrite Hc, Hs.
  destruct (derive_budget_per_kg_returns budget farm) as [bpk ->].
  cbn [bind]. rewrite score_all_zero_crop; [reflexivity | exact Hz |].
  intros E. apply get_all_fertilizers_nil in E. contradiction.
Qed.

Lemma get_recommendation_no_fertilizer (db : FertilizerDatabase)
    (cn st : string) (farm : Q) (budget : option Q) (c : Crop) (s : Soil) :
  get_crop_by_name db cn = Some c ->
  get_soil_by_type db st = Some s ->
  fertilizers db = [] ->
  get_recommendation db cn st farm budget = Raise IndexError.
Proof.
  intros Hc Hs Hempty. apply get_all_fertilizers_nil in Hempty.
  unfold get_recommendation. rewrite Hc, Hs, Hempty.
  destruct (derive_budget_per_kg_returns budget farm) as [bpk ->].
  cbn [bind score_all]. now rewrite select_empty.
Qed.

(** Once the crop and the soil are found a request has exactly three
    outcomes, decided by the catalog, the crop and the farm size alone:
    [IndexError] for an empty catalog; [ZeroDivisionError] for a catalog
    that is not empty with a crop whose requirements sum to zero or a farm
    size of zero; a recommendation otherwise.  The budget never decides. *)
Theorem get_recommendation_outcomes (db : FertilizerDatabase)
    (cn st : string) (farm : Q) (budget : option Q) (c : Crop) (s : Soil) :
  get_crop_by_name db cn = Some c ->
  get_soil_by_type db st = Some s ->
  (get_recommendation db cn st farm budget = Raise IndexError
   <-> fertilizers db = [])
  /\ (get_recommendation db cn st farm budget = Raise ZeroDivisionError
      <-> fertilizers db <> [] /\ (crop_total c == 0 \/ farm == 0))
  /\ ((exists r, get_recommendation db cn st farm budget
                 = Ok (RecommendationDict r))
      <-> fertilizers db <> [] /\ ~ crop_total c == 0 /\ ~ farm == 0).
Proof.
  intros Hc Hs.
  assert (Hcases :
    (fertilizers db = []
     /\ get_recommendation db cn st farm budget = Raise IndexError)
    \/ (fertilizers db <> [] /\ (crop_total c == 0 \/ farm == 0)
        /\ get_recommendation db cn st farm budget = Raise ZeroDivisionError)
    \/ (fertilizers db <> [] /\ ~ crop_total c == 0 /\ ~ farm == 0
        /\ exists r, get_recommendation db cn st farm budget
                     = Ok (RecommendationDict r))).
  { destruct (fertilizers db) as [|f fs] eqn:Ef.
    - left. split; [reflexivity|].
      now apply (get_recommendation_no_fertilizer db cn st farm budget c s).
    - right.
      assert (Hne : fertilizers db <> []) by (rewrite Ef; discriminate).
      destruct (Qeq_dec (crop_total c) 0) as [Hz|Hnz].
      + left. split; [discriminate|]. split; [now left|].
        now apply (get_recommendation_zero_crop db cn st farm budget c s).
      + destruct (Qeq_dec farm 0) as [Hf|Hf].
        * left. split; [discriminate|]. split; [now right|].
          now apply (get_recommendation_zero_farm db cn st farm budget c s).
        * right. split; [discriminate|]. split; [exact Hnz|].
          split; [exact Hf|].
          now apply (get_recommendation_returns db cn st farm budget c s). }
  destruct Hcases as [[He Hr]|[(Hne & Hz & Hr)|(Hne & Hc0 & Hf0 & [r Hr])]];
    rewrite Hr; (split; [|split]); (split; intros H);
    try discriminate H;
    try (match type of H with
         | ex _ => destruct H as [r' H]; discriminate H
         end);
    try reflexivity;
    try (now exists r);
    try tauto;
    exfalso; tauto.
Qed.

Lemma get_recommendation_outcomes_witness :
  get_recommendation Sample.fallow_db "Fallow" "Loam" 2 None
  = Raise ZeroDivisionError.
Proof.
  apply (proj1 (proj2 (get_recommendation_outcomes Sample.fallow_db
                         "Fallow" "Loam" 2 None Sample.fallow Sample.loam
                         eq_refl eq_refl))).
  split; [discriminate | left; reflexivity].
Defined.

(** ** More on ranking and selection *)

Lemma subseq_In {A : Type} (l1 l2 : list A) (x : A) :
  subseq l1 l2 -> In x l1 -> In x l2.
Proof.
  induction 1 as [|y l1 l2 H IH|y l1 l2 H IH]; simpl; intuition.
Qed.

Lemma subseq_length {A : Type} (l1 l2 : list A) :
  subseq l1 l2 -> (List.length l1 <= List.length l2)%nat.
Proof.
  induction 1; simpl; lia.
Qed.

Lemma subseq_skipn {A : Type} (n : nat) (l : list A) : subseq (skipn n l) l.
Proof.
  revert n. induction l as [|x l IH]; intros [|n]; simpl.
  - constructor.
  - constructor.
  - apply subseq_refl.
  - constructor. apply IH.
Qed.

Lemma subseq_slice {A : Type} (i j : nat) (l : list A) : subseq (slice i j l) l.
Proof.
  unfold slice. apply subseq_trans with (skipn i l).
  - apply subseq_firstn.
  - apply subseq_skipn.
Qed.

Lemma subseq_sorted {A : Type} (R : A -> A -> Prop) (l1 l2 : list A) :
  subseq l1 l2 -> StronglySorted R l2 -> StronglySorted R l1.
Proof.
  induction 1 as [|x l1 l2 H IH|x l1 l2 H IH]; intros Hs.
  - constructor.
  - inversion Hs as [|? ? Hs' Hall]; subst. constructor; [now apply IH|].
    rewrite Forall_forall in *. intros y Hy. apply Hall.
    exact (subseq_In _ _ _ H Hy).
  - inversion Hs; subst. now apply IH.
Qed.

Lemma sort_by_key_sorted {A : Type} (key : A -> Q) (l : list A) :
  StronglySorted (fun a b => key a <= key b) (sort_by_key key l).
Proof.
  pose proof (sort_sorted (fun a b => Qle_bool (key a) (key b))) as H.
  assert (Hs : StronglySorted
                 (fun a b => Qle_bool (key a) (key b) = true)
                 (sort_by_key key l)).
  { apply H.
    - intros a b Hab. apply Qle_bool_false_iff in Hab.
      apply Qle_bool_iff. lra.
    - intros a b c Hab Hbc. apply Qle_bool_iff in Hab, Hbc.
      apply Qle_bool_iff. lra. }
  clear H. induction Hs as [|a k Hs IH Hall]; constructor; [exact IH|].
  apply Forall_impl with (2 := Hall). intros b. apply Qle_bool_iff.
Qed.

Lemma sort_by_score_sorted (l : list ScoredFertilizer) :
  StronglySorted (fun a b => score b <= score a) (sort_by_score l).
Proof.
  pose proof (sort_sorted (fun a b : ScoredFertilizer =>
                             Qle_bool (score b) (score a))) as H.
  assert (Hs : StronglySorted
                 (fun a b => Qle_bool (score b) (score a) = true)
                 (sort_by_score l)).
  { apply H.
    - intros a b Hab. apply Qle_bool_false_iff in Hab.
      apply Qle_bool_iff. lra.
    - intros a b c Hab Hbc. apply Qle_bool_iff in Hab, Hbc.
      apply Qle_bool_iff. lra. }
  clear H. induction Hs as [|a k Hs IH Hall]; constructor; [exact IH|].
  apply Forall_impl with (2 := Hall). intros b. apply Qle_bool_iff.
Qed.

Lemma sorted_head {A : Type} (R : A -> A -> Prop) (x : A) (l : list A) :
  (forall a, R a a) -> StronglySorted R (x :: l) ->
  forall y, In y (x :: l) -> R x y.
Proof.
  intros Hrefl Hs y Hy. inversion Hs as [|? ? _ Hall]; subst.
  destruct Hy as [<-|Hy]; [apply Hrefl|].
  rewrite Forall_forall in Hall. now apply Hall.
Qed.

Lemma filter_affordable_iff (budget : option Q)
    (l : list ScoredFertilizer) (x : ScoredFertilizer) :
  In x (filter_affordable budget l)
  <-> In x l /\ match budget with
                | Some b => truthy b = true -> total_cost x <= b
                | None => True
                end.
Proof.
  unfold filter_affordable. destruct budget as [b|]; [|tauto].
  destruct (truthy b).
  - rewrite filter_In, Qle_bool_iff. tauto.
  - split; [intros H; split; [exact H | discriminate] | tauto].
Qed.

Lemma filter_affordable_sort (budget : option Q)
    (l : list ScoredFertilizer) (x : ScoredFertilizer) :
  In x (filter_affordable budget (sort_by_score l))
  <-> In x (filter_affordable budget l).
Proof.
  rewrite !filter_affordable_iff, sort_by_score_In. reflexivity.
Qed.

(** The three ways a selection comes about. *)
Lemma select_cases (budget : option Q) (scored : list ScoredFertilizer)
    (top : ScoredFertilizer) (alts : list ScoredFertilizer) :
  select budget scored = Ok (top, alts) ->
  (filter_affordable budget (sort_by_score scored) = []
   /\ top :: alts
      = firstn 3 (sort_by_key total_cost (sort_by_score scored)))
  \/ (filter_affordable budget (sort_by_score scored) = [top]
      /\ alts = slice 1 4 (sort_by_score scored))
  \/ (exists x rest,
        filter_affordable budget (sort_by_score scored) = top :: x :: rest
        /\ alts = firstn 3 (x :: rest)).
Proof.
  unfold select.
  destruct (filter_affordable budget (sort_by_score scored))
    as [|a [|b aff]] eqn:E.
  - unfold cheapest_fallback, choose, slice.
    destruct (sort_by_key total_cost (sort_by_score scored))
      as [|u [|v [|w l]]]; simpl; intros H; inversion H; subst;
      left; split; reflexivity.
  - simpl. intros H. inversion H; subst. right. left. split; reflexivity.
  - simpl. intros H. inversion H; subst. right. right.
    exists b, aff. split; reflexivity.
Qed.

(** Whenever some candidate is affordable (all are when no budget is given
    or the budget is zero) the primary recommendation is an affordable
    candidate, and no affordable candidate has a higher score. *)
Theorem primary_is_best_affordable (budget : option Q)
    (scored : list ScoredFertilizer) (top : ScoredFertilizer)
    (alts : list ScoredFertilizer) :
  filter_affordable budget scored <> [] ->
  select budget scored = Ok (top, alts) ->
  In top (filter_affordable budget scored)
  /\ (forall x, In x (filter_affordable budget scored) ->
                score x <= score top).
Proof.
  intros Hne H.
  assert (Hhead : exists rest,
            filter_affordable budget (sort_by_score scored) = top :: rest).
  { destruct (select_cases _ _ _ _ H) as [[E _]|[[E _]|(x & rest & E & _)]].
    - exfalso. destruct (filter_affordable budget scored) as [|y l] eqn:Ey;
        [congruence|].
      assert (Hy : In y (filter_affordable budget (sort_by_score scored))).
      { apply filter_affordable_sort. rewrite Ey. now left. }
      rewrite E in Hy. exact Hy.
    - now exists [].
    - now exists (x :: rest). }
  destruct Hhead as [rest E].
  assert (Hs : StronglySorted (fun a b => score b <= score a) (top :: rest)).
  { rewrite <- E.
    apply subseq_sorted with (sort_by_score scored).
    - apply filter_affordable_subseq.
    - apply sort_by_score_sorted. }
  split.
  - apply filter_affordable_sort. rewrite E. now left.
  - intros x Hx. apply filter_affordable_sort in Hx. rewrite E in Hx.
    apply (sorted_head _ _ _ (fun a => Qle_refl (score a)) Hs x Hx).
Qed.

Lemma primary_is_best_affordable_witness :
  exists scored top alts,
    score_all Sample.maize 2 (Some (10000 / (50 * 2)))
      (get_all_fertilizers Sample.sample_db) = Ok scored
    /\ select (Some 10000) scored = Ok (top, alts)
    /\ In top (filter_affordable (Some 10000) scored)
    /\ (forall x, In x (filter_affordable (Some 10000) scored) ->
                  score x <= score top).
Proof.
  eexists. eexists. eexists.
  split; [vm_compute; reflexivity|].
  split; [vm_compute; reflexivity|].
  eapply primary_is_best_affordable.
  - vm_compute. discriminate.
  - vm_compute. reflexivity.
Defined.

Lemma get_recommendation_fields (db : FertilizerDatabase) (cn st : string)
    (farm : Q) (budget : option Q) (r : Recommendation) :
  get_recommendation db cn st farm budget = Ok (RecommendationDict r) ->
  exists c s bpk scored top alts,
    get_crop_by_name db cn = Some c
    /\ get_soil_by_type db st = Some s
    /\ derive_budget_per_kg budget farm = Ok bpk
    /\ score_all c farm bpk (get_all_fertilizers db) = Ok scored
    /\ select budget scored = Ok (top, alts)
    /\ r = {| crop := crop_name c;
              soil := soil_type s;
              farm_size_acres := farm;
              budget_total := budget;
              primary_recommendation := primary_of top;
              alternatives := map alternative_of alts;
              within_budget := within_budget_of top budget |}.
Proof.
  unfold get_recommendation. intros H.
  destruct (get_crop_by_name db cn) as [c|]; [|discriminate].
  destruct (get_soil_by_type db st) as [s|]; [|discriminate].
  destruct (derive_budget_per_kg budget farm) as [bpk|e]; [|discriminate].
  cbn [bind] in H.
  destruct (score_all c farm bpk (get_all_fertilizers db)) as [scored|e]
    eqn:Escored; [|discriminate].
  cbn [bind] in H.
  destruct (select budget scored) as [[top alts]|e] eqn:Eselect;
    [|discriminate].
  cbn [bind] in H. inversion H; subst.
  exists c, s, bpk, scored, top, alts. repeat split; assumption.
Qed.

Lemma select_over_budget (budget : option Q)
    (scored : list ScoredFertilizer) (top : ScoredFertilizer)
    (alts : list ScoredFertilizer) :
  select budget scored = Ok (top, alts) ->
  within_budget_of top budget = false ->
  filter_affordable budget (sort_by_score scored) = []
  /\ exists b, budget = Some b /\ ~ b == 0 /\ b < total_cost top.
Proof.
  intros H Hw. unfold within_budget_of in Hw.
  destruct budget as [b|]; [|discriminate].
  destruct (truthy b) eqn:Eb; [|discriminate].
  apply Qle_bool_false_iff in Hw.
  split; [|exists b; repeat split; [now apply truthy_iff | exact Hw]].
  assert (Hin : forall rest,
            filter_affordable (Some b) (sort_by_score scored) = top :: rest ->
            False).
  { intros rest E.
    assert (Ht : In top (filter_affordable (Some b) (sort_by_score scored)))
      by (rewrite E; now left).
    apply filter_affordable_iff in Ht. destruct Ht as [_ Ht].
    specialize (Ht Eb). lra. }
  destruct (select_cases _ _ _ _ H) as [[E _]|[[E _]|(x & rest & E & _)]].
  - exact E.
  - exfalso. exact (Hin _ E).
  - exfalso. exact (Hin _ E).
Qed.

(** The flag [within_budget] of a recommendation is false exactly when a
    non-zero budget was given and the total cost of every candidate
    exceeds it. *)
Theorem within_budget_false_iff (db : FertilizerDatabase) (cn st : string)
    (farm : Q) (budget : option Q) (r : Recommendation) (c : Crop)
    (bpk : option Q) (scored : list ScoredFertilizer) :
  get_crop_by_name db cn = Some c ->
  derive_budget_per_kg budget farm = Ok bpk ->
  score_all c farm bpk (get_all_fertilizers db) = Ok scored ->
  get_recommendation db cn st farm budget = Ok (RecommendationDict r) ->
  (within_budget r = false
   <-> exists b, budget = Some b /\ ~ b == 0
                 /\ forall x, In x scored -> b < total_cost x).
Proof.
  intros Hc Hbpk Hscored H.
  destruct (get_recommendation_fields _ _ _ _ _ _ H)
    as (c' & s & bpk' & scored' & top & alts
        & Hc' & _ & Hbpk' & Hscored' & Hselect & ->).
  assert (c' = c) by congruence. subst c'.
  assert (bpk' = bpk) by congruence. subst bpk'.
  assert (scored' = scored) by congruence. subst scored'.
  simpl. split.
  - intros Hw.
    destruct (select_over_budget _ _ _ _ Hselect Hw)
      as (Enone & b & -> & Hb & _).
    exists b. repeat split; [exact Hb|].
    intros x Hx. apply Qnot_le_lt. intros Hle.
    assert (Hin : In x (filter_affordable (Some b) (sort_by_score scored))).
    { apply filter_affordable_iff. rewrite sort_by_score_In.
      split; [exact Hx | intros _; exact Hle]. }
    rewrite Enone in Hin. exact Hin.
  - intros (b & -> & Hb & Hall). unfold within_budget_of.
    rewrite (proj2 (truthy_iff b) Hb). apply Qle_bool_false_iff.
    apply Hall. exact (select_top_In _ _ _ _ Hselect).
Qed.

Lemma within_budget_false_iff_witness :
  exists r,
    get_recommendation Sample.sample_db "Maize" "Loam" 2 (Some 100)
    = Ok (RecommendationDict r)
    /\ within_budget r = false.
Proof.
  assert (Hr : exists r,
             get_recommendation Sample.sample_db "Maize" "Loam" 2 (Some 100)
             = Ok (RecommendationDict r)).
  { eexists. vm_compute. reflexivity. }
  assert (Hs : exists scored,
             score_all Sample.maize 2 (Some (100 / (50 * 2)))
               (get_all_fertilizers Sample.sample_db) = Ok scored
             /\ forall x, In x scored -> 100 < total_cost x).
  { eexists. split; [vm_compute; reflexivity|].
    intros x Hx.
    repeat (destruct Hx as [<-|Hx]; [reflexivity|]). destruct Hx. }
  destruct Hr as [r Hr]. destruct Hs as (scored & Hs & Hall).
  exists r. split; [exact Hr|].
  apply (proj2 (within_budget_false_iff Sample.sample_db "Maize" "Loam" 2
                  (Some 100) r Sample.maize (Some (100 / (50 * 2))) scored
                  eq_refl eq_refl Hs Hr)).
  exists 100. repeat split; [discriminate | exact Hall].
Defined.

Lemma score_all_length (c : Crop) (farm : Q) (bpk : option Q)
    (ferts : list Fertilizer) (scored : list ScoredFertilizer) :
  score_all c farm bpk ferts = Ok scored ->
  List.length scored = List.length ferts.
Proof.
  intros H. apply score_all_entries in H.
  induction H; simpl; congruence.
Qed.

(** A recommendation lists at most three alternatives, and none exactly
    when the catalog holds a single fertilizer. *)
Theorem alternatives_count (db : FertilizerDatabase) (cn st : string)
    (farm : Q) (budget : option Q) (r : Recommendation) :
  get_recommendation db cn st farm budget = Ok (RecommendationDict r) ->
  (List.length (alternatives r) <= 3)%nat
  /\ (alternatives r = [] <-> List.length (fertilizers db) = 1%nat).
Proof.
  intros H.
  destruct (get_recommendation_fields _ _ _ _ _ _ H)
    as (c & s & bpk & scored & top & alts
        & _ & _ & _ & Hscored & Hselect & ->).
  simpl. rewrite length_map.
  assert (Hn : List.length (fertilizers db) = List.length scored).
  { rewrite (score_all_length _ _ _ _ _ Hscored).
    unfold get_all_fertilizers, sort_by_key. now rewrite sort_length. }
  rewrite Hn.
  assert (Hnil : map alternative_of alts = [] <-> List.length alts = 0%nat).
  { destruct alts; simpl; split; congruence. }
  rewrite Hnil.
  assert (Hranked : List.length (sort_by_score scored) = List.length scored)
    by apply sort_length.
  destruct (select_cases _ _ _ _ Hselect)
    as [[_ E]|[[E ->]|(x & rest & E & ->)]].
  - assert (El : S (List.length alts)
                 = Nat.min 3 (List.length scored)).
    { change (S (List.length alts)) with (List.length (top :: alts)).
      rewrite E, length_firstn. unfold sort_by_key.
      now rewrite sort_length, Hranked. }
    lia.
  - pose proof (subseq_length _ _
                  (filter_affordable_subseq budget (sort_by_score scored)))
      as Hle.
    rewrite E in Hle. simpl in Hle.
    unfold slice. rewrite length_firstn, length_skipn. lia.
  - pose proof (subseq_length _ _
                  (filter_affordable_subseq budget (sort_by_score scored)))
      as Hle.
    rewrite E in Hle. simpl in Hle.
    rewrite length_firstn. simpl List.length. lia.
Qed.

Lemma alternatives_count_witness :
  exists r,
    get_recommendation Sample.sample_db "Maize" "Loam" 2 (Some 10000)
    = Ok (RecommendationDict r)
    /\ (List.length (alternatives r) <= 3)%nat.
Proof.
  assert (Hr : exists r,
             get_recommendation Sample.sample_db "Maize" "Loam" 2
               (Some 10000) = Ok (RecommendationDict r)).
  { eexists. vm_compute. reflexivity. }
  destruct Hr as [r Hr]. exists r. split; [exact Hr|].
  exact (proj1 (alternatives_count _ _ _ _ _ _ Hr)).
Defined.

(** When exactly one candidate meets a non-zero budget, it is the primary
    recommendation, the alternatives are places two to four of the score
    ranking, and each of them either exceeds the budget or is the primary
    itself. *)
Theorem single_affordable_alternatives (b : Q)
    (scored : list ScoredFertilizer) (only top : ScoredFertilizer)
    (alts : list ScoredFertilizer) :
  ~ b == 0 ->
  filter_affordable (Some b) (sort_by_score scored) = [only] ->
  select (Some b) scored = Ok (top, alts) ->
  top = only
  /\ alts = slice 1 4 (sort_by_score scored)
  /\ (forall a, In a alts -> a = top \/ b < total_cost a).
Proof.
  intros Hb E H.
  destruct (select_cases _ _ _ _ H) as [[E' _]|[[E' ->]|(x & rest & E' & _)]];
    rewrite E in E'; try discriminate.
  inversion E'; subst only. split; [reflexivity | split; [reflexivity|]].
  intros a Ha.
  destruct (Qlt_le_dec b (total_cost a)) as [Hlt|Hle]; [now right | left].
  assert (Hin : In a (filter_affordable (Some b) (sort_by_score scored))).
  { apply filter_affordable_iff. split.
    - exact (subseq_In _ _ _ (subseq_slice 1 4 _) Ha).
    - intros _. exact Hle. }
  rewrite E in Hin. destruct Hin as [<-|[]]. reflexivity.
Qed.

Lemma single_affordable_alternatives_witness :
  exists scored top alts,
    score_all Sample.maize 2 (Some (8500 / (50 * 2)))
      (get_all_fertilizers Sample.sample_db) = Ok scored
    /\ select (Some 8500) scored = Ok (top, alts)
    /\ (forall a, In a alts -> a = top \/ 8500 < total_cost a).
Proof.
  assert (H : exists scored top alts,
             score_all Sample.maize 2 (Some (8500 / (50 * 2)))
               (get_all_fertilizers Sample.sample_db) = Ok scored
             /\ select (Some 8500) scored = Ok (top, alts)
             /\ filter_affordable (Some 8500) (sort_by_score scored) = [top]).
  { eexists. eexists. eexists.
    split; [vm_compute; reflexivity|].
    split; vm_compute; reflexivity. }
  destruct H as (scored & top & alts & Hscored & Hselect & Hone).
  exists scored, top, alts. split; [exact Hscored | split; [exact Hselect|]].
  refine (proj2 (proj2 (single_affordable_alternatives 8500 scored top top
                          alts _ Hone Hselect))).
  discriminate.
Defined.

Lemma sorted_map {A B : Type} (R : A -> A -> Prop) (S : B -> B -> Prop)
    (f : A -> B) (l : list A) :
  (forall x y, R x y -> S (f x) (f y)) ->
  StronglySorted R l -> StronglySorted S (map f l).
Proof.
  intros HRS. induction 1 as [|x l Hs IH Hall]; simpl; constructor.
  - exact IH.
  - apply Forall_map. apply Forall_impl with (2 := Hall).
    intros y. apply HRS.
Qed.

(** A recommendation that is not within the budget lists at most two
    alternatives, in ascending order of total cost, none of them cheaper
    than the primary recommendation. *)
Theorem over_budget_alternatives_by_cost (db : FertilizerDatabase)
    (cn st : string) (farm : Q) (budget : option Q) (r : Recommendation) :
  get_recommendation db cn st farm budget = Ok (RecommendationDict r) ->
  within_budget r = false ->
  (List.length (alternatives r) <= 2)%nat
  /\ StronglySorted (fun a a' => alt_total_cost a <= alt_total_cost a')
       (alternatives r)
  /\ Forall (fun a => primary_total_cost (primary_recommendation r)
                      <= alt_total_cost a)
       (alternatives r).
Proof.
  intros H Hw.
  destruct (get_recommendation_fields _ _ _ _ _ _ H)
    as (c & s & bpk & scored & top & alts
        & _ & _ & _ & _ & Hselect & ->).
  simpl in *.
  destruct (select_over_budget _ _ _ _ Hselect Hw) as [Enone _].
  destruct (select_cases _ _ _ _ Hselect)
    as [[_ E]|[[E _]|(x & rest & E & _)]];
    try (rewrite Enone in E; discriminate).
  assert (Hs : StronglySorted (fun a a' => total_cost a <= total_cost a')
                 (top :: alts)).
  { rewrite E.
    apply subseq_sorted
      with (sort_by_key total_cost (sort_by_score scored)).
    - apply subseq_firstn.
    - apply sort_by_key_sorted. }
  split; [|split].
  - rewrite length_map.
    assert (Hl : (List.length (top :: alts) <= 3)%nat)
      by (rewrite E; apply firstn_le_length).
    simpl in Hl. lia.
  - inversion Hs as [|? ? Hs' _]; subst.
    apply sorted_map with (2 := Hs'). intros x y Hxy. exact Hxy.
  - inversion Hs as [|? ? _ Hall]; subst.
    apply Forall_map. exact Hall.
Qed.

Lemma over_budget_alternatives_by_cost_witness :
  exists r,
    get_recommendation Sample.sample_db "Maize" "Loam" 2 (Some 100)
    = Ok (RecommendationDict r)
    /\ List.length (alternatives r) = 2%nat
    /\ Forall (fun a => primary_total_cost (primary_recommendation r)
                        <= alt_total_cost a)
         (alternatives r).
Proof.
  assert (Hr : exists r,
             get_recommendation Sample.sample_db "Maize" "Loam" 2 (Some 100)
             = Ok (RecommendationDict r)
             /\ List.length (alternatives r) = 2%nat
             /\ within_budget r = false).
  { eexists. split; [vm_compute; reflexivity|]. split; reflexivity. }
  destruct Hr as (r & Hr & Hlen & Hw). exists r.
  split; [exact Hr | split; [exact Hlen|]].
  exact (proj2 (proj2 (over_budget_alternatives_by_cost _ _ _ _ _ _ Hr Hw))).
Defined.

(** ** Names and case in a request *)

Lemma get_crop_by_name_some (db : FertilizerDatabase) (name : string)
    (c : Crop) :
  get_crop_by_name db name = Some c ->
  In c (crops db) /\ lower (crop_name c) = lower name.
Proof.
  unfold get_crop_by_name. intros H. apply find_some in H.
  destruct H as [Hin Heq]. split; [exact Hin | now apply String.eqb_eq].
Qed.

Lemma get_soil_by_type_some (db : FertilizerDatabase) (name : string)
    (s : Soil) :
  get_soil_by_type db name = Some s ->
  In s (soils db) /\ lower (soil_type s) = lower name.
Proof.
  unfold get_soil_by_type. intros H. apply find_some in H.
  destruct H as [Hin Heq]. split; [exact Hin | now apply String.eqb_eq].
Qed.

(** A recommendation echoes the request: its crop and soil are the
    catalog's spellings of the names asked for, equal to them when case is
    ignored, and its farm size and budget are those of the request. *)
Theorem recommendation_echoes_request (db : FertilizerDatabase)
    (cn st : string) (farm : Q) (budget : option Q) (r : Recommendation) :
  get_recommendation db cn st farm budget = Ok (RecommendationDict r) ->
  (exists c, In c (crops db) /\ crop r = crop_name c)
  /\ (exists s, In s (soils db) /\ soil r = soil_type s)
  /\ lower (crop r) = lower cn
  /\ lower (soil r) = lower st
  /\ farm_size_acres r = farm
  /\ budget_total r = budget.
Proof.
  intros H.
  destruct (get_recommendation_fields _ _ _ _ _ _ H)
    as (c & s & bpk & scored & top & alts & Hc & Hs & _ & _ & _ & ->).
  apply get_crop_by_name_some in Hc. apply get_soil_by_type_some in Hs.
  destruct Hc as [Hc Hcl]. destruct Hs as [Hs Hsl]. simpl.
  repeat split; try assumption; [now exists c | now exists s].
Qed.

Lemma recommendation_echoes_request_witness :
  exists r,
    get_recommendation Sample.sample_db "mAiZe" "LOAM" 2 None
    = Ok (RecommendationDict r)
    /\ crop r = "Maize"%string /\ soil r = "Loam"%string.
Proof.
  assert (Hr : exists r,
             get_recommendation Sample.sample_db "mAiZe" "LOAM" 2 None
             = Ok (RecommendationDict r)
             /\ crop r = "Maize"%string /\ soil r = "Loam"%string).
  { eexists. split; [vm_compute; reflexivity | split; reflexivity]. }
  destruct Hr as (r & Hr & Hcrop & Hsoil). exists r.
  destruct (recommendation_echoes_request _ _ _ _ _ _ Hr)
    as (_ & _ & _ & _ & _ & _).
  split; [exact Hr | split; assumption].
Defined.

(** Case does not matter in a request: two requests whose crop names and
    soil types agree when case is ignored have the same outcome, provided
    the crop and the soil are found (the not-found message quotes the name
    as it was given). *)
Theorem get_recommendation_ignores_case (db : FertilizerDatabase)
    (cn cn' st st' : string) (farm : Q) (budget : option Q) :
  lower cn = lower cn' -> lower st = lower st' ->
  get_crop_by_name db cn <> None ->
  get_soil_by_type db st <> None ->
  get_recommendation db cn' st' farm budget
  = get_recommendation db cn st farm budget.
Proof.
  intros Hcn Hst Hc Hs. unfold get_recommendation.
  assert (Ec : get_crop_by_name db cn' = get_crop_by_name db cn)
    by (unfold get_crop_by_name; now rewrite Hcn).
  assert (Es : get_soil_by_type db st' = get_soil_by_type db st)
    by (unfold get_soil_by_type; now rewrite Hst).
  rewrite Ec, Es.
  destruct (get_crop_by_name db cn) as [c|]; [|congruence].
  destruct (get_soil_by_type db st) as [s|]; [|congruence].
  reflexivity.
Qed.

Lemma get_recommendation_ignores_case_witness :
  get_recommendation Sample.sample_db "MAIZE" "loam" 2 (Some 10000)
  = get_recommendation Sample.sample_db "Maize" "Loam" 2 (Some 10000).
Proof.
  apply get_recommendation_ignores_case;
    reflexivity || (vm_compute; discriminate).
Defined.

(** ** The catalog lookups *)

Section SortPermutation.

Context {A : Type}.
Variable before : A -> A -> bool.

Lemma insert_permutation (x : A) (l : list A) :
  Permutation (x :: l) (insert before x l).
Proof.
  induction l as [|y l IH]; simpl; [reflexivity|].
  destruct (before x y); [reflexivity|].
  rewrite perm_swap. now constructor.
Qed.

Lemma sort_permutation (l : list A) : Permutation l (sort before l).
Proof.
  induction l as [|x l IH]; simpl; [constructor|].
  rewrite <- insert_permutation. now constructor.
Qed.

End SortPermutation.

(** The fertilizer listing holds the rows of the table, each as often as
    the table does, in ascending order of price per kg. *)
Theorem get_all_fertilizers_by_price (db : FertilizerDatabase) :
  Permutation (fertilizers db) (get_all_fertilizers db)
  /\ StronglySorted (fun f g => price_per_kg f <= price_per_kg g)
       (get_all_fertilizers db).
Proof.
  split.
  - apply sort_permutation.
  - apply sort_by_key_sorted.
Qed.

Section FindByName.

Context {A : Type}.
Variable key : A -> string.

Lemma find_by_name_some (l : list A) (name : string) (a : A) :
  find (fun x => String.eqb (lower (key x)) (lower name)) l = Some a -> In a l /\ lower (key a) = lower name.
Proof.
  intros H. apply find_some in H. destruct H as [Hin Heq].
  split; [exact Hin | now apply String.eqb_eq].
Qed.

Lemma find_by_name_none (l : list A) (name : string) :
  find (fun x => String.eqb (lower (key x)) (lower name)) l = None
  <-> forall a, In a l -> lower (key a) <> lower name.
Proof.
  split.
  - intros H a Hin Heq.
    pose proof (find_none _ _ H a Hin) as Hf. cbv beta in Hf.
    apply String.eqb_eq in Heq. congruence.
  - intros H. induction l as [|x l IH]; [reflexivity|]. simpl.
    destruct (String.eqb (lower (key x)) (lower name)) eqn:E.
    + apply String.eqb_eq in E. exfalso. apply (H x); [now left | exact E].
    + apply IH. intros a Ha. apply H. now right.
Qed.

Lemma find_by_name_first (l : list A) (name : string) (a : A) :
  find (fun x => String.eqb (lower (key x)) (lower name)) l = Some a ->
  exists pre post,
    l = pre ++ a :: post
    /\ forall b, In b pre -> lower (key b) <> lower name.
Proof.
  induction l as [|x l IH]; [discriminate|]. simpl.
  destruct (String.eqb (lower (key x)) (lower name)) eqn:E.
  - intros H. inversion H; subst. exists [], l. split; [reflexivity|].
    intros b [].
  - intros H. destruct (IH H) as (pre & post & -> & Hpre).
    exists (x :: pre), post. split; [reflexivity|].
    intros b [<-|Hb]; [|now apply Hpre].
    intros Heq. apply String.eqb_eq in Heq. congruence.
Qed.

Lemma find_by_name_own (l : list A) (a : A) :
  NoDup (map (fun x => lower (key x)) l) -> In a l ->
  find (fun x => String.eqb (lower (key x)) (lower (key a))) l = Some a.
Proof.
  induction l as [|x l IH]; intros Hnd Hin; [destruct Hin|].
  simpl in Hnd. inversion Hnd as [|? ? Hnotin Hnd']; subst. simpl.
  destruct Hin as [->|Hin].
  - now rewrite String.eqb_refl.
  - destruct (String.eqb (lower (key x)) (lower (key a))) eqn:E.
    + exfalso. apply Hnotin. apply String.eqb_eq in E. rewrite E.
      apply (in_map (fun x => lower (key x))). exact Hin.
    + now apply IH.
Qed.

End FindByName.

(** The crop lookup returns the first row of the table whose name is the
    one asked for when case is ignored, and nothing exactly when the table
    has no such row. *)
Theorem get_crop_by_name_first_match (db : FertilizerDatabase)
    (name : string) :
  (get_crop_by_name db name = None
   <-> forall c, In c (crops db) -> lower (crop_name c) <> lower name)
  /\ (forall c, get_crop_by_name db name = Some c ->
        lower (crop_name c) = lower name
        /\ exists pre post,
             crops db = pre ++ c :: post
             /\ forall b, In b pre -> lower (crop_name b) <> lower name).
Proof.
  split.
  - apply (find_by_name_none crop_name).
  - intros c H. split.
    + exact (proj2 (find_by_name_some crop_name _ _ _ H)).
    + exact (find_by_name_first crop_name _ _ _ H).
Qed.

Lemma get_crop_by_name_first_match_witness :
  lower (crop_name Sample.beans) = lower "BEANS"
  /\ exists pre post,
       crops Sample.sample_db = pre ++ Sample.beans :: post
       /\ forall b, In b pre -> lower (crop_name b) <> lower "BEANS".
Proof.
  apply (proj2 (get_crop_by_name_first_match Sample.sample_db "BEANS")).
  reflexivity.
Defined.

(** The soil lookup returns the first row of the table whose type is the
    one asked for when case is ignored, and nothing exactly when the table
    has no such row. *)
Theorem get_soil_by_type_first_match (db : FertilizerDatabase)
    (name : string) :
  (get_soil_by_type db name = None
   <-> forall s, In s (soils db) -> lower (soil_type s) <> lower name)
  /\ (forall s, get_soil_by_type db name = Some s ->
        lower (soil_type s) = lower name
        /\ exists pre post,
             soils db = pre ++ s :: post
             /\ forall b, In b pre -> lower (soil_type b) <> lower name).
Proof.
  split.
  - apply (find_by_name_none soil_type).
  - intros s H. split.
    + exact (proj2 (find_by_name_some soil_type _ _ _ H)).
    + exact (find_by_name_first soil_type _ _ _ H).
Qed.

Lemma get_soil_by_type_first_match_witness :
  get_soil_by_type Sample.sample_db "Peat" = None.
Proof.
  apply (proj1 (get_soil_by_type_first_match Sample.sample_db "Peat")).
  intros s [<-|[]]. discriminate.
Defined.

(** In a table whose names differ when case is ignored, every row is found
    under its own name, however the name is capitalised; the same holds for
    the soils. *)
Theorem lookup_own_name (db : FertilizerDatabase) :
  (NoDup (map (fun c => lower (crop_name c)) (crops db)) ->
   forall c name, In c (crops db) -> lower name = lower (crop_name c) ->
                  get_crop_by_name db name = Some c)
  /\ (NoDup (map (fun s => lower (soil_type s)) (soils db)) ->
      forall s name, In s (soils db) -> lower name = lower (soil_type s) ->
                     get_soil_by_type db name = Some s).
Proof.
  split; intros Hnd x name Hin Hname.
  - unfold get_crop_by_name. rewrite Hname.
    exact (find_by_name_own crop_name _ _ Hnd Hin).
  - unfold get_soil_by_type. rewrite Hname.
    exact (find_by_name_own soil_type _ _ Hnd Hin).
Qed.

Lemma lookup_own_name_witness :
  get_crop_by_name Sample.sample_db (upper (crop_name Sample.beans))
  = Some Sample.beans.
Proof.
  apply (proj1 (lookup_own_name Sample.sample_db)).
  - repeat constructor; simpl; intuition discriminate.
  - right. left. reflexivity.
  - apply lower_upper.
Defined.

(** ** Rounded figures *)

Lemma pow10_pos (n : nat) : 0 < inject_Z (10 ^ Z.of_nat n).
Proof.
  change 0 with (inject_Z 0). rewrite <- Zlt_Qlt.
  apply Z.pow_pos_nonneg; lia.
Qed.

Lemma py_round_cases (x : Q) (n : nat) :
  let m := inject_Z (10 ^ Z.of_nat n) in
  let k := Qfloor (x * m) in
  let r := x * m - inject_Z k in
  0 <= r /\ r < 1
  /\ ((py_round x n = inject_Z k / m /\ r <= 1 # 2)
      \/ (py_round x n = inject_Z (k + 1) / m /\ 1 # 2 <= r)).
Proof.
  intros m k r.
  assert (Hlo : inject_Z k <= x * m) by apply Qfloor_le.
  assert (Hhi : x * m < inject_Z (k + 1)) by apply Qlt_floor.
  rewrite inject_Z_plus in Hhi. change (inject_Z 1) with 1 in Hhi.
  assert (Hr : 0 <= r /\ r < 1).
  { unfold r. revert Hlo Hhi. generalize (x * m) (inject_Z k).
    intros a b Hlo Hhi. split; lra. }
  destruct Hr as [Hr0 Hr1].
  split; [exact Hr0 | split; [exact Hr1|]].
  unfold py_round. fold m. fold k. fold r.
  clearbody r.
  destruct (Qlt_bool r (1 # 2)) eqn:E1.
  - apply Qlt_bool_iff in E1. left. split; [reflexivity | lra].
  - apply Qlt_bool_false_iff in E1.
    destruct (Qlt_bool (1 # 2) r) eqn:E2.
    + right. split; [reflexivity | exact E1].
    + apply Qlt_bool_false_iff in E2.
      destruct (Z.even k); [left | right]; split;
        reflexivity || assumption.
Qed.

Lemma py_round_error (x : Q) (n : nat) :
  Qabs (py_round x n - x) <= (1 # 2) / inject_Z (10 ^ Z.of_nat n).
Proof.
  pose proof (pow10_pos n) as Hm.
  destruct (py_round_cases x n) as (H0 & H1 & Hcase).
  set (m := inject_Z (10 ^ Z.of_nat n)) in *.
  set (k := Qfloor (x * m)) in *.
  assert (Hx : x == (x * m) / m) by (field; lra).
  apply Qabs_Qle_condition.
  assert (Hhalf : (1 # 2) / m * m == 1 # 2) by (field; lra).
  destruct Hcase as [[-> Hr]|[-> Hr]].
  - assert (E : inject_Z k / m - x == - ((x * m - inject_Z k) / m))
      by (field; lra).
    assert (Hq : (x * m - inject_Z k) / m <= (1 # 2) / m).
    { apply Qmult_le_compat_r; [exact Hr|].
      apply Qlt_le_weak, Qinv_lt_0_compat, Hm. }
    assert (Hq0 : 0 <= (x * m - inject_Z k) / m)
      by (apply Qle_shift_div_l; lra).
    assert (Hb : 0 <= (1 # 2) / m) by (apply Qle_shift_div_l; lra).
    rewrite E. split; lra.
  - rewrite inject_Z_plus.
    assert (E : (inject_Z k + inject_Z 1) / m - x
                == (1 - (x * m - inject_Z k)) / m)
      by (field; lra).
    assert (Hq : (1 - (x * m - inject_Z k)) / m <= (1 # 2) / m).
    { apply Qmult_le_compat_r; [lra|].
      apply Qlt_le_weak, Qinv_lt_0_compat, Hm. }
    assert (Hq0 : 0 <= (1 - (x * m - inject_Z k)) / m)
      by (apply Qle_shift_div_l; lra).
    assert (Hb : 0 <= (1 # 2) / m) by (apply Qle_shift_div_l; lra).
    rewrite E. split; lra.
Qed.

(** The recorded total cost of a candidate is within half a cent of its
    quantity times the price per kg. *)
Theorem total_cost_rounding (c : Crop) (farm : Q) (bpk : option Q)
    (ferts : list Fertilizer) (scored : list ScoredFertilizer) :
  score_all c farm bpk ferts = Ok scored ->
  Forall (fun x =>
            Qabs (total_cost x
                  - application_rate_kg x * price_per_kg (fertilizer x))
            <= 1 # 200)
    scored.
Proof.
  intros H. apply score_all_entries in H.
  induction H as [|f x ferts scored (Hf & Hr & Ht) _ IH]; constructor;
    [|exact IH].
  rewrite Ht, Hr, Hf. apply (py_round_error _ 2).
Qed.

Lemma total_cost_rounding_witness :
  exists scored,
    score_all Sample.maize (1 # 3) None
      (get_all_fertilizers Sample.sample_db) = Ok scored
    /\ Forall (fun x =>
                 Qabs (total_cost x
                       - application_rate_kg x * price_per_kg (fertilizer x))
                 <= 1 # 200)
         scored.
Proof.
  assert (H : exists scored,
             score_all Sample.maize (1 # 3) None
               (get_all_fertilizers Sample.sample_db) = Ok scored).
  { eexists. vm_compute. reflexivity. }
  destruct H as [scored H]. exists scored. split; [exact H|].
  exact (total_cost_rounding _ _ _ _ _ H).
Defined.

Lemma Qdiv_le_pos (a b m : Q) : 0 < m -> a <= b -> a / m <= b / m.
Proof.
  intros Hm Hab. apply Qmult_le_compat_r; [exact Hab|].
  apply Qlt_le_weak, Qinv_lt_0_compat, Hm.
Qed.

Lemma py_round_mono (x y : Q) (n : nat) :
  x <= y -> py_round x n <= py_round y n.
Proof.
  intros Hxy. pose proof (pow10_pos n) as Hm.
  destruct (Qeq_dec x y) as [Heq|Hne];
    [rewrite (py_round_comp x y n Heq); apply Qle_refl|].
  assert (Hlt : x < y) by (apply Qle_lteq in Hxy; tauto).
  destruct (py_round_cases x n) as (Hx0 & Hx1 & Hcx).
  destruct (py_round_cases y n) as (Hy0 & Hy1 & Hcy).
  set (m := inject_Z (10 ^ Z.of_nat n)) in *.
  assert (Hxm : x * m < y * m) by (apply Qmult_lt_compat_r; assumption).
  assert (Hk : (Qfloor (x * m) <= Qfloor (y * m))%Z)
    by (apply Qfloor_resp_le; lra).
  set (kx := Qfloor (x * m)) in *. set (ky := Qfloor (y * m)) in *.
  assert (Hstep : inject_Z kx / m <= inject_Z (kx + 1) / m).
  { apply Qdiv_le_pos; [exact Hm|]. rewrite <- Zle_Qle. lia. }
  assert (Hstep' : inject_Z ky / m <= inject_Z (ky + 1) / m).
  { apply Qdiv_le_pos; [exact Hm|]. rewrite <- Zle_Qle. lia. }
  destruct (Z.eq_dec kx ky) as [Ek|Ek].
  - rewrite <- Ek in *.
    destruct Hcx as [[-> Hrx]|[-> Hrx]], Hcy as [[-> Hry]|[-> Hry]];
      try apply Qle_refl; try exact Hstep.
    exfalso. lra.
  - assert (Hk' : (kx + 1 <= ky)%Z) by lia.
    assert (Hmid : inject_Z (kx + 1) / m <= inject_Z ky / m).
    { apply Qdiv_le_pos; [exact Hm|]. now rewrite <- Zle_Qle. }
    destruct Hcx as [[-> _]|[-> _]], Hcy as [[-> _]|[-> _]]; lra.
Qed.

Lemma primary_score_bounds (s : Q) :
  0 <= s -> s <= 100 -> 0 <= py_round s 1 /\ py_round s 1 <= 100.
Proof.
  intros H0 H100.
  pose proof (py_round_mono 0 s 1 H0) as Hlo.
  pose proof (py_round_mono s 100 1 H100) as Hhi.
  assert (E0 : py_round 0 1 == 0) by reflexivity.
  assert (E100 : py_round 100 1 == 100) by reflexivity.
  split; lra.
Qed.

(** For a positive farm size and a budget that is absent or positive, the
    score shown for the primary recommendation, rounded to one decimal,
    lies between 0 and 100. *)
Theorem primary_score_in_range (db : FertilizerDatabase) (cn st : string)
    (farm : Q) (budget : option Q) (r : Recommendation) :
  match budget with Some b => 0 < b | None => True end ->
  0 < farm ->
  get_recommendation db cn st farm budget = Ok (RecommendationDict r) ->
  0 <= primary_score (primary_recommendation r)
  /\ primary_score (primary_recommendation r) <= 100.
Proof.
  intros Hb Hfarm H.
  destruct (get_recommendation_fields _ _ _ _ _ _ H)
    as (c & s & bpk & scored & top & alts
        & _ & _ & Hbpk & Hscored & Hselect & ->).
  simpl.
  pose proof (derive_budget_per_kg_positive _ _ _ Hb Hfarm Hbpk) as Hceil.
  pose proof (score_all_scores _ _ _ _ _ Hscored) as Hall.
  rewrite Forall_forall in Hall.
  pose proof (Hall top (select_top_In _ _ _ _ Hselect)) as Hs.
  destruct (score_fertilizer_bounds _ _ _ _ Hceil Hs) as [H0 H100].
  now apply primary_score_bounds.
Qed.

Lemma primary_score_in_range_witness :
  exists r,
    get_recommendation Sample.sample_db "Maize" "Loam" 2 (Some 10000)
    = Ok (RecommendationDict r)
    /\ 0 <= primary_score (primary_recommendation r)
    /\ primary_score (primary_recommendation r) <= 100.
Proof.
  assert (Hr : exists r,
             get_recommendation Sample.sample_db "Maize" "Loam" 2
               (Some 10000) = Ok (RecommendationDict r)).
  { eexists. vm_compute. reflexivity. }
  destruct Hr as [r Hr]. exists r. split; [exact Hr|].
  apply (primary_score_in_range Sample.sample_db "Maize" "Loam" 2
           (Some 10000) r); [reflexivity | reflexivity | exact Hr].
Defined.




(** * The conversation state *)

Section ChatFacts.

Variable py_float : string -> option Q.

Lemma scan_units_keeps (units : list string) (clean : string -> string)
    (words : list string) :
  forall prev current,
    current <> None ->
    Chatbot.scan_units py_float units clean prev words current <> None.
Proof.
  induction words as [|w words IH]; intros prev current H; simpl;
    [exact H|].
  apply IH. destruct (Chatbot.word_in w units); [|exact H].
  destruct (py_float (clean prev)); [discriminate | exact H].
Qed.

Lemma scan_words_keeps (units : list string) (clean : string -> string)
    (words : list string) (current : option Q) :
  current <> None ->
  Chatbot.scan_words py_float units clean words current <> None.
Proof.
  destruct words as [|w words]; simpl; [tauto | apply scan_units_keeps].
Qed.

Lemma extract_info_keeps (bot : Chatbot.FertilizerChatbot) (msg : string) :
  keeps_what_was_heard (Chatbot.user_data bot)
    (Chatbot.user_data (Chatbot.extract_info py_float bot msg)).
Proof.
  unfold keeps_what_was_heard, Chatbot.extract_info. simpl.
  repeat split.
  - intros H. destruct (Chatbot.first_mentioned _ _); [discriminate|exact H].
  - intros H. destruct (Chatbot.first_mentioned _ _); [discriminate|exact H].
  - apply scan_words_keeps.
  - apply scan_words_keeps.
Qed.

Lemma hear_keeps (msgs : list string) :
  forall bot,
    keeps_what_was_heard (Chatbot.user_data bot)
      (Chatbot.user_data (Chatbot.hear py_float bot msgs)).
Proof.
  induction msgs as [|m msgs IH]; intros bot.
  - unfold keeps_what_was_heard. simpl. tauto.
  - pose proof (extract_info_keeps bot m) as H1.
    pose proof (IH (Chatbot.extract_info py_float bot m)) as H2.
    unfold keeps_what_was_heard in *. simpl.
    fold (Chatbot.hear py_float (Chatbot.extract_info py_float bot m) msgs).
    tauto.
Qed.

Lemma check_ready_iff (bot : Chatbot.FertilizerChatbot) :
  Chatbot.check_ready_for_recommendation bot = true
  <-> Chatbot.crop (Chatbot.user_data bot) <> None
      /\ Chatbot.soil (Chatbot.user_data bot) <> None
      /\ Chatbot.acres (Chatbot.user_data bot) <> None.
Proof.
  unfold Chatbot.check_ready_for_recommendation.
  destruct (Chatbot.crop _), (Chatbot.soil _), (Chatbot.acres _);
    split; try discriminate; try tauto; intros _; repeat split; discriminate.
Qed.

(** Nothing that was heard is forgotten: a run of messages empties no key
    of the user data, so a bot that is ready for a recommendation stays
    ready whatever is said next. *)
Theorem hear_keeps_ready (bot : Chatbot.FertilizerChatbot)
    (msgs : list string) :
  keeps_what_was_heard (Chatbot.user_data bot)
    (Chatbot.user_data (Chatbot.hear py_float bot msgs))
  /\ (Chatbot.check_ready_for_recommendation bot = true ->
      Chatbot.check_ready_for_recommendation
        (Chatbot.hear py_float bot msgs) = true).
Proof.
  pose proof (hear_keeps msgs bot) as H. split; [exact H|].
  rewrite !check_ready_iff. unfold keeps_what_was_heard in H. tauto.
Qed.

Lemma first_mentioned_some (names : list string) (msg : string) :
  forall pre name post,
    names = pre ++ name :: post ->
    mentions name msg ->
    (forall d, In d pre -> ~ mentions d msg) ->
    Chatbot.first_mentioned names (lower msg) = Some name.
Proof.
  induction names as [|n names IH]; intros pre name post E Hm Hpre.
  - destruct pre; discriminate.
  - simpl. destruct (contains (lower n) (lower msg)) eqn:Ec.
    + destruct pre as [|d pre]; simpl in E; inversion E; subst;
        [reflexivity|].
      exfalso. apply (Hpre d); [now left|]. now apply contains_iff.
    + destruct pre as [|d pre]; simpl in E; inversion E; subst.
      * apply contains_iff in Hm. congruence.
      * apply (IH pre name post eq_refl Hm).
        intros x Hx. apply Hpre. now right.
Qed.

Lemma first_mentioned_none (names : list string) (msg : string) :
  (forall name, In name names -> ~ mentions name msg) ->
  Chatbot.first_mentioned names (lower msg) = None.
Proof.
  induction names as [|n names IH]; intros H; simpl; [reflexivity|].
  destruct (contains (lower n) (lower msg)) eqn:Ec.
  - exfalso. apply (H n); [now left | now apply contains_iff].
  - apply IH. intros name Hin. apply H. now right.
Qed.

Lemma first_mentioned_In (names : list string) (msg_lower name : string) :
  Chatbot.first_mentioned names msg_lower = Some name -> In name names.
Proof.
  induction names as [|n names IH]; simpl; [discriminate|].
  destruct (contains (lower n) msg_lower).
  - intros H. inversion H. now left.
  - intros H. right. now apply IH.
Qed.

(** The crop heard in a message is the first crop of the bot's list, in
    the order of the list and not of the message, whose name occurs in the
    message when case is ignored; a message that names no crop leaves the
    crop as it was.  The same holds for the soil. *)
Theorem extract_info_names (bot : Chatbot.FertilizerChatbot) (msg : string) :
  let bot' := Chatbot.extract_info py_float bot msg in
  (forall pre name post,
     Chatbot.crops bot = pre ++ name :: post ->
     mentions name msg ->
     (forall d, In d pre -> ~ mentions d msg) ->
     Chatbot.crop (Chatbot.user_data bot') = Some name)
  /\ ((forall name, In name (Chatbot.crops bot) -> ~ mentions name msg) ->
      Chatbot.crop (Chatbot.user_data bot')
      = Chatbot.crop (Chatbot.user_data bot))
  /\ (forall pre name post,
        Chatbot.soils bot = pre ++ name :: post ->
        mentions name msg ->
        (forall d, In d pre -> ~ mentions d msg) ->
        Chatbot.soil (Chatbot.user_data bot') = Some name)
  /\ ((forall name, In name (Chatbot.soils bot) -> ~ mentions name msg) ->
      Chatbot.soil (Chatbot.user_data bot')
      = Chatbot.soil (Chatbot.user_data bot)).
Proof.
  simpl. repeat split.
  - intros pre name post E Hm Hpre.
    now rewrite (first_mentioned_some _ _ pre name post E Hm Hpre).
  - intros H. now rewrite (first_mentioned_none _ _ H).
  - intros pre name post E Hm Hpre.
    now rewrite (first_mentioned_some _ _ pre name post E Hm Hpre).
  - intros H. now rewrite (first_mentioned_none _ _ H).
Qed.

End ChatFacts.

Lemma hear_keeps_ready_witness :
  Chatbot.check_ready_for_recommendation
    (Chatbot.hear Chatbot.read_decimal
       (Chatbot.hear Chatbot.read_decimal (Chatbot.init Sample.sample_db)
          ["I want to plant maize"; "I have loam soil and 2 acres"]%string)
       ["thank you"; "what about the rains"]%string) = true.
Proof.
  apply (proj2 (hear_keeps_ready Chatbot.read_decimal _ _)).
  vm_compute. reflexivity.
Defined.

Lemma extract_info_names_witness :
  Chatbot.crop
    (Chatbot.user_data
       (Chatbot.extract_info Chatbot.read_decimal
          (Chatbot.init Sample.sample_db) "Beans or maize, which is better?"))
  = Some "Maize"%string.
Proof.
  apply (proj1 (extract_info_names Chatbot.read_decimal
                  (Chatbot.init Sample.sample_db)
                  "Beans or maize, which is better?")
           [] "Maize"%string ["Beans"%string]).
  - reflexivity.
  - exists "beans or "%string, ", which is better?"%string. reflexivity.
  - intros d [].
Defined.

Section ChatNumbers.

Variable py_float : string -> option Q.

Lemma word_in_iff (w : string) (units : list string) :
  Chatbot.word_in w units = true <-> In w units.
Proof.
  unfold Chatbot.word_in. rewrite existsb_exists. split.
  - intros (x & Hin & Heq). apply String.eqb_eq in Heq. now subst.
  - intros H. exists w. split; [exact H | apply String.eqb_refl].
Qed.

Lemma scan_units_unchanged (units : list string) (clean : string -> string)
    (words : list string) :
  (forall x, In x words -> ~ In x units) ->
  forall prev current,
    Chatbot.scan_units py_float units clean prev words current = current.
Proof.
  induction words as [|w words IH]; intros H prev current; simpl;
    [reflexivity|].
  destruct (Chatbot.word_in w units) eqn:E.
  - exfalso. apply (H w); [now left | now apply word_in_iff].
  - apply IH. intros x Hx. apply H. now right.
Qed.

Lemma scan_units_last (units : list string) (clean : string -> string)
    (w u : string) (post : list string) (v : Q) :
  In u units -> py_float (clean w) = Some v ->
  (forall x, In x post -> ~ In x units) ->
  forall pre prev current,
    Chatbot.scan_units py_float units clean prev (pre ++ w :: u :: post)
      current = Some v.
Proof.
  intros Hu Hv Hpost. induction pre as [|p pre IH]; intros prev current.
  - simpl. rewrite (proj2 (word_in_iff u units) Hu), Hv.
    now apply scan_units_unchanged.
  - simpl. apply IH.
Qed.

Lemma scan_words_last (units : list string) (clean : string -> string)
    (pre : list string) (w u : string) (post : list string) (v : Q)
    (current : option Q) :
  In u units -> py_float (clean w) = Some v ->
  (forall x, In x post -> ~ In x units) ->
  Chatbot.scan_words py_float units clean (pre ++ w :: u :: post) current
  = Some v.
Proof.
  intros Hu Hv Hpost. destruct pre as [|p pre]; simpl.
  - rewrite (proj2 (word_in_iff u units) Hu), Hv.
    now apply scan_units_unchanged.
  - now apply scan_units_last.
Qed.

Lemma scan_words_unchanged (units : list string) (clean : string -> string)
    (words : list string) (current : option Q) :
  (forall x, In x (tl words) -> ~ In x units) ->
  Chatbot.scan_words py_float units clean words current = current.
Proof.
  destruct words as [|w words]; simpl; [reflexivity|].
  intros H. now apply scan_units_unchanged.
Qed.

(** The farm size heard in a message is the number that the word before
    the last of "acre", "acres" and "ac" reads as, a unit word whose
    predecessor is no number being passed over; a message with no such
    word after its first word leaves the farm size as it was. *)
Theorem extract_info_acres (bot : Chatbot.FertilizerChatbot) (msg : string) :
  let bot' := Chatbot.extract_info py_float bot msg in
  (forall pre w u post v,
     Chatbot.split (lower msg) = pre ++ w :: u :: post ->
     In u Chatbot.acre_words ->
     py_float w = Some v ->
     (forall x, In x post -> ~ In x Chatbot.acre_words) ->
     Chatbot.acres (Chatbot.user_data bot') = Some v)
  /\ ((forall x, In x (tl (Chatbot.split (lower msg))) ->
                 ~ In x Chatbot.acre_words) ->
      Chatbot.acres (Chatbot.user_data bot')
      = Chatbot.acres (Chatbot.user_data bot)).
Proof.
  simpl. split.
  - intros pre w u post v E Hu Hv Hpost. rewrite E.
    now apply scan_words_last.
  - intros H. now apply scan_words_unchanged.
Qed.

(** The budget heard in a message is the number that the word before the
    last of "kes", "ksh", "shillings" and "bob" reads as once its commas
    are taken out; a message with no such word after its first word leaves
    the budget as it was. *)
Theorem extract_info_budget (bot : Chatbot.FertilizerChatbot) (msg : string) :
  let bot' := Chatbot.extract_info py_float bot msg in
  (forall pre w u post v,
     Chatbot.split (lower msg) = pre ++ w :: u :: post ->
     In u Chatbot.money_words ->
     py_float (Chatbot.remove_commas w) = Some v ->
     (forall x, In x post -> ~ In x Chatbot.money_words) ->
     Chatbot.budget (Chatbot.user_data bot') = Some v)
  /\ ((forall x, In x (tl (Chatbot.split (lower msg))) ->
                 ~ In x Chatbot.money_words) ->
      Chatbot.budget (Chatbot.user_data bot')
      = Chatbot.budget (Chatbot.user_data bot)).
Proof.
  simpl. split.
  - intros pre w u post v E Hu Hv Hpost. rewrite E.
    now apply scan_words_last.
  - intros H. now apply scan_words_unchanged.
Qed.

End ChatNumbers.

Lemma extract_info_acres_witness :
  Chatbot.acres
    (Chatbot.user_data
       (Chatbot.extract_info Chatbot.read_decimal
          (Chatbot.init Sample.sample_db)
          "Not 5 acres but 2.5 Acres of loam"))
  = Some (25 # 10).
Proof.
  apply (proj1 (extract_info_acres Chatbot.read_decimal
                  (Chatbot.init Sample.sample_db)
                  "Not 5 acres but 2.5 Acres of loam")
           ["not"; "5"; "acres"; "but"]%string "2.5"%string "acres"%string
           ["of"; "loam"]%string).
  - reflexivity.
  - simpl. tauto.
  - reflexivity.
  - intros x [<-|[<-|[]]]; simpl; intuition discriminate.
Defined.

Lemma extract_info_budget_witness :
  Chatbot.budget
    (Chatbot.user_data
       (Chatbot.extract_info Chatbot.read_decimal
          (Chatbot.init Sample.sample_db) "My budget is 8,000 shillings"))
  = Some (8000 # 1).
Proof.
  apply (proj1 (extract_info_budget Chatbot.read_decimal
                  (Chatbot.init Sample.sample_db)
                  "My budget is 8,000 shillings")
           ["my"; "budget"; "is"]%string "8,000"%string "shillings"%string
           []).
  - reflexivity.
  - simpl. tauto.
  - reflexivity.
  - intros x [].
Defined.

Section ChatEngine.

Variable py_float : string -> option Q.

Lemma extract_info_lists (bot : Chatbot.FertilizerChatbot) (msg : string) :
  Chatbot.crops (Chatbot.extract_info py_float bot msg) = Chatbot.crops bot
  /\ Chatbot.soils (Chatbot.extract_info py_float bot msg)
     = Chatbot.soils bot.
Proof. split; reflexivity. Qed.

Lemma hear_from_lists (msgs : list string) :
  forall bot,
    (forall n, Chatbot.crop (Chatbot.user_data bot) = Some n ->
               In n (Chatbot.crops bot)) ->
    (forall n, Chatbot.soil (Chatbot.user_data bot) = Some n ->
               In n (Chatbot.soils bot)) ->
    let bot' := Chatbot.hear py_float bot msgs in
    Chatbot.crops bot' = Chatbot.crops bot
    /\ Chatbot.soils bot' = Chatbot.soils bot
    /\ (forall n, Chatbot.crop (Chatbot.user_data bot') = Some n ->
                  In n (Chatbot.crops bot))
    /\ (forall n, Chatbot.soil (Chatbot.user_data bot') = Some n ->
                  In n (Chatbot.soils bot)).
Proof.
  induction msgs as [|m msgs IH]; intros bot Hc Hs.
  - simpl. repeat split; assumption.
  - simpl.
    fold (Chatbot.hear py_float (Chatbot.extract_info py_float bot m) msgs).
    apply (IH (Chatbot.extract_info py_float bot m)).
    + simpl. intros n.
      destruct (Chatbot.first_mentioned (Chatbot.crops bot) (lower m))
        eqn:E; [|apply Hc].
      intros H. inversion H; subst.
      exact (first_mentioned_In _ _ _ E).
    + simpl. intros n.
      destruct (Chatbot.first_mentioned (Chatbot.soils bot) (lower m))
        eqn:E; [|apply Hs].
      intros H. inversion H; subst.
      exact (first_mentioned_In _ _ _ E).
Qed.

Lemma hear_init (db : FertilizerDatabase) (msgs : list string) :
  let bot := Chatbot.hear py_float (Chatbot.init db) msgs in
  (forall n, Chatbot.crop (Chatbot.user_data bot) = Some n ->
             exists c, In c (crops db) /\ crop_name c = n)
  /\ (forall n, Chatbot.soil (Chatbot.user_data bot) = Some n ->
                exists s, In s (soils db) /\ soil_type s = n).
Proof.
  destruct (hear_from_lists msgs (Chatbot.init db)) as (_ & _ & Hc & Hs);
    try (simpl; discriminate).
  simpl in *. split; intros n H.
  - apply Hc in H. unfold Chatbot.get_all_crops in H.
    apply in_map_iff in H. destruct H as (c & E & Hin). now exists c.
  - apply Hs in H. unfold Chatbot.get_all_soils in H.
    apply in_map_iff in H. destruct H as (s & E & Hin). now exists s.
Qed.

(** Whatever is said to a bot set up on a catalog, the crop and the soil
    it holds are names of rows of that catalog, in the catalog's own
    spelling. *)
Theorem heard_names_are_catalog_names (db : FertilizerDatabase)
    (msgs : list string) :
  let bot := Chatbot.hear py_float (Chatbot.init db) msgs in
  (forall n, Chatbot.crop (Chatbot.user_data bot) = Some n ->
             exists c, In c (crops db) /\ crop_name c = n)
  /\ (forall n, Chatbot.soil (Chatbot.user_data bot) = Some n ->
                exists s, In s (soils db) /\ soil_type s = n).
Proof. apply hear_init. Qed.

Lemma own_crop_found (db : FertilizerDatabase) (c : Crop) :
  In c (crops db) -> get_crop_by_name db (crop_name c) <> None.
Proof.
  intros Hin H. unfold get_crop_by_name in H.
  exact (proj1 (find_by_name_none crop_name _ _) H c Hin eq_refl).
Qed.

Lemma own_soil_found (db : FertilizerDatabase) (s : Soil) :
  In s (soils db) -> get_soil_by_type db (soil_type s) <> None.
Proof.
  intros Hin H. unfold get_soil_by_type in H.
  exact (proj1 (find_by_name_none soil_type _ _) H s Hin eq_refl).
Qed.

(** The engine never answers a bot with the not-found error: the crop and
    the soil the bot asks for are always in the catalog it was set up on. *)
Theorem chat_never_not_found (db : FertilizerDatabase) (msgs : list string)
    (msg : string) :
  Chatbot.call_engine db (Chatbot.hear py_float (Chatbot.init db) msgs)
  <> Some (Ok (ErrorDict msg)).
Proof.
  destruct (hear_init db msgs) as [Hc Hs].
  unfold Chatbot.call_engine.
  destruct (Chatbot.crop _) as [cn|]; [|discriminate].
  destruct (Chatbot.soil _) as [st|]; [|discriminate].
  destruct (Chatbot.acres _) as [a|]; [|discriminate].
  destruct (Hc cn eq_refl) as (c & Hcin & <-).
  destruct (Hs st eq_refl) as (s & Hsin & <-).
  pose proof (own_crop_found db c Hcin) as Hcf.
  pose proof (own_soil_found db s Hsin) as Hsf.
  intros H. inversion H as [H']. clear H.
  unfold get_recommendation in H'.
  destruct (get_crop_by_name db (crop_name c)) as [c'|]; [|congruence].
  destruct (get_soil_by_type db (soil_type s)) as [s'|]; [|congruence].
  destruct (derive_budget_per_kg _ a) as [bpk|e]; [|discriminate].
  cbn [bind] in H'.
  destruct (score_all c' a bpk (get_all_fertilizers db)) as [scored|e];
    [|discriminate].
  cbn [bind] in H'.
  destruct (select _ scored) as [[top alts]|e]; discriminate.
Qed.

(** A bot that has heard a farm size of zero, with a crop and a soil, makes
    the engine raise [ZeroDivisionError] on any catalog that offers a
    fertilizer; [chat] does not catch it. *)
Theorem chat_zero_acres_raises (db : FertilizerDatabase)
    (msgs : list string) (a : Q) :
  let bot := Chatbot.hear py_float (Chatbot.init db) msgs in
  Chatbot.check_ready_for_recommendation bot = true ->
  Chatbot.acres (Chatbot.user_data bot) = Some a ->
  a == 0 ->
  fertilizers db <> [] ->
  Chatbot.call_engine db bot = Some (Raise ZeroDivisionError).
Proof.
  intros bot Hready Ha Hz Hne.
  destruct (hear_init db msgs) as [Hc Hs]. fold bot in Hc, Hs.
  unfold Chatbot.call_engine.
  unfold Chatbot.check_ready_for_recommendation in Hready.
  destruct (Chatbot.crop (Chatbot.user_data bot)) as [cn|];
    [|discriminate].
  destruct (Chatbot.soil (Chatbot.user_data bot)) as [st|];
    [|discriminate].
  rewrite Ha.
  destruct (Hc cn eq_refl) as (c & Hcin & <-).
  destruct (Hs st eq_refl) as (s & Hsin & <-).
  pose proof (own_crop_found db c Hcin) as Hcf.
  pose proof (own_soil_found db s Hsin) as Hsf.
  destruct (get_crop_by_name db (crop_name c)) as [c'|] eqn:Ec;
    [|congruence].
  destruct (get_soil_by_type db (soil_type s)) as [s'|] eqn:Es;
    [|congruence].
  f_equal.
  exact (get_recommendation_zero_farm db _ _ a _ c' s' Ec Es Hne Hz).
Qed.

End ChatEngine.

Lemma heard_names_are_catalog_names_witness :
  exists c, In c (crops Sample.sample_db) /\ crop_name c = "Beans"%string.
Proof.
  apply (proj1 (heard_names_are_catalog_names Chatbot.read_decimal
                  Sample.sample_db ["BEANS on 3 acres"]%string)).
  reflexivity.
Defined.

Lemma chat_zero_acres_raises_witness :
  Chatbot.call_engine Sample.sample_db
    (Chatbot.hear Chatbot.read_decimal (Chatbot.init Sample.sample_db)
       ["maize on loam"; "0 acres"]%string)
  = Some (Raise ZeroDivisionError).
Proof.
  apply (chat_zero_acres_raises Chatbot.read_decimal Sample.sample_db
           ["maize on loam"; "0 acres"]%string 0).
  - reflexivity.
  - reflexivity.
  - reflexivity.
  - discriminate.
Defined.

(** * Filling the catalog *)

Section InsertOrIgnore.

Context {A : Type}.
Variable key : A -> string.

Lemma insert_row_present (table : list A) (row : A) :
  In (key row) (map key table) -> InitDatabase.insert_or_ignore key table row = table.
Proof.
  intros H. unfold InitDatabase.insert_or_ignore.
  destruct (existsb _ table) eqn:E; [reflexivity|]. exfalso.
  apply in_map_iff in H. destruct H as (x & Hx & Hin).
  assert (Ht : existsb (fun x => String.eqb (key x) (key row)) table = true).
  { apply existsb_exists. exists x. split; [exact Hin|].
    rewrite Hx. apply String.eqb_refl. }
  congruence.
Qed.

Lemma insert_row_keys (table : list A) (row : A) (k : string) :
  In k (map key (InitDatabase.insert_or_ignore key table row))
  <-> In k (map key table) \/ k = key row.
Proof.
  unfold InitDatabase.insert_or_ignore.
  destruct (existsb _ table) eqn:E.
  - split; [tauto|]. intros [H|Hk]; [exact H|]. subst k.
    apply existsb_exists in E. destruct E as (x & Hin & Heq).
    apply String.eqb_eq in Heq. rewrite <- Heq. now apply in_map.
  - rewrite map_app, in_app_iff. simpl. intuition.
Qed.

Lemma insert_rows_keys (rows table : list A) (k : string) :
  In k (map key (fold_left (InitDatabase.insert_or_ignore key) rows table))
  <-> In k (map key table) \/ In k (map key rows).
Proof.
  revert table. induction rows as [|r rows IH]; intros table; simpl.
  - tauto.
  - rewrite IH, insert_row_keys. intuition.
Qed.

Lemma insert_rows_present (rows table : list A) :
  (forall r, In r rows -> In (key r) (map key table)) ->
  fold_left (InitDatabase.insert_or_ignore key) rows table = table.
Proof.
  induction rows as [|r rows IH]; intros H; simpl; [reflexivity|].
  rewrite insert_row_present by (apply H; now left).
  apply IH. intros x Hx. apply H. now right.
Qed.

Lemma insert_rows_twice (rows table : list A) :
  fold_left (InitDatabase.insert_or_ignore key) rows (fold_left (InitDatabase.insert_or_ignore key) rows table)
  = fold_left (InitDatabase.insert_or_ignore key) rows table.
Proof.
  apply insert_rows_present. intros r Hr.
  apply insert_rows_keys. right. now apply in_map.
Qed.

End InsertOrIgnore.

Lemma insert_fertilizers_app (rows table : list Fertilizer) :
  fold_left InitDatabase.insert_or_ignore_fertilizer rows table
  = table ++ rows.
Proof.
  revert table. induction rows as [|r rows IH]; intros table; simpl.
  - now rewrite app_nil_r.
  - rewrite IH. unfold InitDatabase.insert_or_ignore_fertilizer.
    now rewrite <- app_assoc.
Qed.

(** Filling a catalog that was filled before changes neither the crops nor
    the soils, but adds the eight sample fertilizers once more: every run
    lengthens the fertilizer table by eight, and the rows it adds are the
    sample rows, appended in their order. *)
Theorem insert_sample_data_again (db : FertilizerDatabase) :
  let once := InitDatabase.insert_sample_data db in
  let twice := InitDatabase.insert_sample_data once in
  crops twice = crops once
  /\ soils twice = soils once
  /\ fertilizers once = fertilizers db ++ InitDatabase.sample_fertilizers
  /\ fertilizers twice
     = fertilizers db ++ InitDatabase.sample_fertilizers
       ++ InitDatabase.sample_fertilizers
  /\ List.length (fertilizers twice)
     = (List.length (fertilizers db) + 16)%nat.
Proof.
  intros once twice. subst once twice.
  unfold InitDatabase.insert_sample_data. cbn [crops soils fertilizers].
  repeat split.
  - exact (insert_rows_twice crop_name _ _).
  - exact (insert_rows_twice soil_type _ _).
  - apply insert_fertilizers_app.
  - rewrite !insert_fertilizers_app. now rewrite <- app_assoc.
  - rewrite !insert_fertilizers_app, !length_app. simpl. lia.
Qed.

(** A filled catalog has every sample crop and soil under its name, and
    keeps every row it had: filling only ever adds. *)
Theorem insert_sample_data_adds (db : FertilizerDatabase) :
  let filled := InitDatabase.insert_sample_data db in
  (forall c, In c InitDatabase.sample_crops ->
             get_crop_by_name filled (crop_name c) <> None)
  /\ (forall s, In s InitDatabase.sample_soils ->
                get_soil_by_type filled (soil_type s) <> None)
  /\ (forall name, get_crop_by_name db name <> None ->
                   get_crop_by_name filled name <> None)
  /\ (forall name, get_soil_by_type db name <> None ->
                   get_soil_by_type filled name <> None).
Proof.
  assert (Hfind : forall (A : Type) (key : A -> string) (l : list A) k,
            In k (map key l) ->
            find (fun x => String.eqb (lower (key x)) (lower k)) l <> None).
  { intros A key l k Hin H.
    apply in_map_iff in Hin. destruct Hin as (x & Hx & Hin).
    apply (proj1 (find_by_name_none key _ _) H x Hin). now rewrite Hx. }
  assert (Hkey : forall (A : Type) (key : A -> string) (l : list A) k,
            find (fun x => String.eqb (lower (key x)) (lower k)) l <> None ->
            exists x, In x l
                      /\ lower (key x) = lower k).
  { intros A key l k H.
    destruct (find _ l) as [x|] eqn:E; [|congruence].
    exists x. exact (find_by_name_some key _ _ _ E). }
  intros filled. subst filled.
  unfold get_crop_by_name, get_soil_by_type, InitDatabase.insert_sample_data.
  cbn [crops soils fertilizers]. repeat split.
  - intros c Hc. apply Hfind.
    apply (proj2 (insert_rows_keys crop_name _ _ _)). right.
    now apply in_map.
  - intros s Hs. apply Hfind.
    apply (proj2 (insert_rows_keys soil_type _ _ _)). right.
    now apply in_map.
  - intros name H.
    destruct (Hkey _ crop_name _ _ H) as (x & Hin & Hx).
    rewrite <- Hx. apply Hfind.
    apply (proj2 (insert_rows_keys crop_name _ _ _)). left.
    now apply in_map.
  - intros name H.
    destruct (Hkey _ soil_type _ _ H) as (x & Hin & Hx).
    rewrite <- Hx. apply Hfind.
    apply (proj2 (insert_rows_keys soil_type _ _ _)). left.
    now apply in_map.
Qed.

Lemma insert_sample_data_adds_witness :
  get_crop_by_name
    (InitDatabase.insert_sample_data InitDatabase.create_database)
    (crop_name InitDatabase.wheat) <> None.
Proof.
  apply (proj1 (insert_sample_data_adds InitDatabase.create_database)).
  simpl. tauto.
Defined.

Lemma chat_never_not_found_witness :
  Chatbot.call_engine Sample.sample_db
    (Chatbot.hear Chatbot.read_decimal (Chatbot.init Sample.sample_db)
       ["beans on loam, 3 acres"]%string)
  <> Some (Ok (ErrorDict "Crop Beans not found")).
Proof.
  exact (chat_never_not_found Chatbot.read_decimal Sample.sample_db
           ["beans on loam, 3 acres"]%string "Crop Beans not found").
Defined.
